(** * PuLID for FLUX: the request pipeline of [app.py]

    [app.py] wires pretrained models (the FLUX denoiser, its autoencoder, the
    T5 and CLIP text encoders, the PuLID identity extractor) to a web form.
    Its one piece of logic is [generate_image]: seed resolution, the gate on
    true classifier-free guidance, the optional identity embedding, the
    optional CPU/accelerator relocation of the model handles, and the
    conversion of the decoded tensor to 8-bit pixels.

    The numerical models are collaborators that the file imports from the
    packages [flux] and [pulid]; they are the fields of the class [Backend]
    below.  [generate_image] is embedded as a computation over the
    process-wide [FluxGenerator] object that also records, in order, every
    call it makes and every write to a model handle. *)

From Stdlib Require Import ZArith QArith Qabs Qround Qminmax List String Bool Lia Lqa.
From Stdlib Require Import Floats DecimalString DecimalPos DecimalZ.
Import ListNotations.
Open Scope Z_scope.

(** ** Python scalars *)

(** Python's [float] is binary64, and so is Rocq's primitive [float].  The
    literal [1e-2] is the double nearest to one hundredth. *)
Definition py_1e_2 : float := 0x1.47ae147ae147bp-7%float.

(** [abs(true_cfg - 1.0) > 1e-2], line 77. *)
Definition use_true_cfg_of (true_cfg : float) : bool :=
  PrimFloat.ltb py_1e_2 (PrimFloat.abs (PrimFloat.sub true_cfg 1.0%float)).

(** [int(seed)], line 59.  The request record holds the seed as the integer
    that the form's digits denote; on an integer [int] is the identity. *)
Definition py_int (seed : Z) : Z := seed.

(** [str(n)] for a Python [int]: decimal digits, a leading [-] when negative. *)
Definition py_str (n : Z) : string := NilZero.string_of_int (Z.to_int n).

(** Reading a decimal string back, to say what an echoed seed denotes. *)
Definition py_parse_int (s : string) : option Z :=
  option_map Z.of_int (NilZero.int_of_string s).

(** [torch.Generator(device="cpu").seed()] returns an unsigned 64-bit value:
    whatever the entropy source delivers is reduced to 64 bits. *)
Definition uint64_wrap (entropy : Z) : Z := entropy mod 2 ^ 64.

(** ** Devices and model handles *)

Inductive Device : Type := CPU | CUDA.

(** The text encoder built by [load_t5(device, max_length=128)]. *)
Record T5Embedder : Type := {
  t5_device : Device;
  max_length : Z
}.

Record ClipEmbedder : Type := { clip_device : Device }.

Record FluxModel : Type := { model_device : Device }.

(** [load_ae] places the whole autoencoder; [ae.decoder.to(...)] later moves
    the decoder alone. *)
Record AutoEncoder : Type := {
  encoder_device : Device;
  decoder_device : Device
}.

(** The handles a request can touch. *)
Inductive Handle : Type := H_t5 | H_clip | H_model | H_ae | H_ae_decoder | H_pulid.

(** ** Tensors that the pipeline looks into *)

(** The dictionary returned by [prepare]; [denoise(model, **inp, ...)] spreads
    exactly these five keys. *)
Record Inp (T : Type) : Type := {
  inp_img : T;
  inp_img_ids : T;
  inp_txt : T;
  inp_txt_ids : T;
  inp_vec : T
}.
Arguments inp_img {T} _.
Arguments inp_img_ids {T} _.
Arguments inp_txt {T} _.
Arguments inp_txt_ids {T} _.
Arguments inp_vec {T} _.

(** A batch with at least one sample: [get_noise(1, ...)] fixes the batch at
    one, so [x[0]] is always there. *)
Record Batch (A : Type) : Type := {
  sample0 : A;
  more_samples : list A
}.
Arguments sample0 {A} _.
Arguments more_samples {A} _.

Definition batch_map {A B : Type} (f : A -> B) (b : Batch A) : Batch B :=
  {| sample0 := f (sample0 b); more_samples := map f (more_samples b) |}.

(** An entry of a decoded tensor: a number, an infinity or not-a-number.
    The program computes in floating point; here a number is a rational and
    the arithmetic on numbers is exact, while the infinities and
    not-a-number go through each operation as torch's do. *)
Inductive Entry : Type :=
| Num (q : Q)
| PosInf
| NegInf
| NaN.

(** A decoded sample, [c h w]: channels, rows, columns. *)
Definition Pixels : Type := list (list (list Entry)).

(** The array handed to [Image.fromarray], [h w c], one byte per entry. *)
Definition ByteImage : Type := list (list (list Z)).

(** ** The collaborators *)

Class Backend : Type := {
  Tensor : Type;
  NumpyImage : Type;
  (** [image.shape[:2]] *)
  image_height : NumpyImage -> Z;
  image_width : NumpyImage -> Z;
  (** [x.device], [x.shape[-1]], [x.shape[-2]], [x.float()] *)
  tensor_device : Tensor -> Device;
  shape_last : Tensor -> Z;
  shape_last_but_one : Tensor -> Z;
  tensor_float : Tensor -> Tensor;
  (** [flux.sampling]: [get_noise(num_samples, height, width, device, dtype,
      seed)] with [dtype] fixed to bfloat16 by the caller; [get_schedule(
      num_steps, image_seq_len, shift)]; [prepare(t5, clip, img, prompt)], of
      whose handles only the token budget [t5.max_length] varies during the
      process; [unpack(x, height, width)]. *)
  get_noise : Z -> Z -> Z -> Device -> Z -> Tensor;
  get_schedule : Z -> Z -> bool -> list float;
  prepare : Z -> Tensor -> string -> Inp Tensor;
  unpack : Tensor -> Z -> Z -> Tensor;
  (** [pulid.utils.resize_numpy_image_long(image, resize_long_edge)] *)
  resize_numpy_image_long : NumpyImage -> Z -> NumpyImage;
  (** The two networks behind [PuLIDPipeline.get_id_embedding]. *)
  pulid_id_embedding : NumpyImage -> Tensor;
  pulid_uncond_id_embedding : NumpyImage -> Tensor;
  (** One evaluation of the denoiser: latent, image ids, text, text ids,
      pooled vector, timestep, guidance, and the identity conditioning (an
      embedding with its weight) when there is one. *)
  flux_forward :
    Tensor -> Tensor -> option Tensor -> option Tensor -> option Tensor ->
    float -> float -> option (Tensor * float) -> Tensor;
  (** [neg + scale * (pos - neg)] on predictions. *)
  cfg_combine : Tensor -> float -> Tensor -> Tensor;
  (** [img + (t_next - t_curr) * pred] *)
  euler_step : Tensor -> float -> float -> Tensor -> Tensor;
  (** [ae.decode(x)] *)
  ae_decode : Tensor -> Batch Pixels;
  (** What [.byte()] makes of an entry that is not a number; the conversion
      of such a value to an integer is left open by the platform, and
      whatever it gives is one byte. *)
  non_finite_to_byte : Entry -> Z;
  (** What [PuLIDPipeline(...)] starts with in [debug_img_list]. *)
  pulid_initial_debug_imgs : list NumpyImage;
  (** The debug images an extraction leaves in [debug_img_list], from the
      images that were there, the image given and [cal_uncond]. *)
  pulid_debug_images : list NumpyImage -> NumpyImage -> bool -> list NumpyImage
}.

(** The identity pipeline object: of its state the response reads
    [debug_img_list]. *)
Record PuLIDPipeline `{Backend} : Type := {
  debug_img_list : list NumpyImage
}.

(** The process-wide object built at import time, line 39. *)
Record FluxGenerator `{Backend} : Type := {
  device : Device;
  offload : bool;
  model_name : string;
  model : FluxModel;
  ae : AutoEncoder;
  t5 : T5Embedder;
  clip : ClipEmbedder;
  pulid_model : PuLIDPipeline
}.

(** ** A small backend to run the pipeline on

    Tensors are an integer with the device it lives on; reference images are
    their two edge lengths.  Every collaborator is a small arithmetic
    function that keeps its arguments visible in the result. *)

Definition toy_opt (o : option (Device * Z)) : Z :=
  match o with Some t => snd t | None => 0 end.

Definition toy_pixel (v : Z) : Q := (v mod 5 - 2) # 2.

(** The decoder of the small backend yields not-a-number on the latents
    that are multiples of 11. *)
Definition toy_entry (v : Z) : Entry :=
  if v mod 11 =? 0 then NaN else Num (toy_pixel v).

(** A schedule of [n + 1] values that starts at [t] and halves. *)
Fixpoint toy_schedule (n : nat) (t : float) : list float :=
  match n with
  | O => [t]
  | S k => t :: toy_schedule k (t / 2)%float
  end.

Definition toy_backend : Backend := {|
  Tensor := Device * Z;
  NumpyImage := Z * Z;
  image_height := fst;
  image_width := snd;
  tensor_device := fst;
  shape_last := fun _ => 8;
  shape_last_but_one := fun _ => 8;
  tensor_float := fun t => t;
  get_noise := fun n h w d s => (d, s);
  get_schedule := fun n len sh => toy_schedule (Z.to_nat n) 1%float;
  prepare := fun ml x p =>
    {| inp_img := x;
       inp_img_ids := (fst x, 0);
       inp_txt := (fst x, Z.of_nat (String.length p) + ml);
       inp_txt_ids := (fst x, 0);
       inp_vec := (fst x, Z.of_nat (String.length p)) |};
  unpack := fun x h w => x;
  resize_numpy_image_long := fun im n => (Z.min (fst im) n, Z.min (snd im) n);
  pulid_id_embedding := fun im => (CUDA, fst im + snd im);
  pulid_uncond_id_embedding := fun im => (CUDA, 0);
  flux_forward := fun img ids txt tids vec t gd idc =>
    (fst img, 1 + toy_opt txt + match idc with Some e => snd (fst e) | None => 0 end);
  cfg_combine := fun neg scale pos => (fst pos, 2 * snd pos - snd neg);
  euler_step := fun img t1 t2 pred => (fst img, snd img + snd pred);
  ae_decode := fun x =>
    {| sample0 := [[[toy_entry (snd x); Num 1]; [Num (-3); Num (1 # 3)]]];
       more_samples := [] |};
  non_finite_to_byte := fun _ => 0;
  pulid_initial_debug_imgs := [];
  pulid_debug_images := fun old im cal => [im]
|}.

Section Pipeline.
Context `{B : Backend}.

(** ** The request and its options *)

(** The thirteen arguments of [generate_image], lines 42 to 56. *)
Record Request : Type := {
  width : Z;
  height : Z;
  num_steps : Z;
  start_step : Z;
  guidance : float;
  seed : Z;
  prompt : string;
  id_image : option NumpyImage;
  id_weight : float;
  neg_prompt : string;
  true_cfg : float;
  timestep_to_start_cfg : Z;
  max_sequence_length : Z
}.

(** [flux.cli.SamplingOptions] as line 63 fills it. *)
Record SamplingOptions : Type := {
  o_prompt : string;
  o_width : Z;
  o_height : Z;
  o_num_steps : Z;
  o_guidance : float;
  o_seed : option Z
}.

Definition set_o_seed (o : SamplingOptions) (s : option Z) : SamplingOptions :=
  {| o_prompt := o_prompt o; o_width := o_width o; o_height := o_height o;
     o_num_steps := o_num_steps o; o_guidance := o_guidance o; o_seed := s |}.

(** What [generate_image] returns: the image, the seed as text, the debug
    images of the identity pipeline. *)
Record Response : Type := {
  resp_image : ByteImage;
  resp_seed : string;
  resp_debug : list NumpyImage
}.

(** The keyword arguments of the call of [denoise], lines 116 to 123. *)
Record DenoiseArgs : Type := {
  d_img : Tensor;
  d_img_ids : Tensor;
  d_txt : Tensor;
  d_txt_ids : Tensor;
  d_vec : Tensor;
  d_timesteps : list float;
  d_guidance : float;
  d_id : option Tensor;
  d_id_weight : float;
  d_start_step : Z;
  d_uncond_id : option Tensor;
  d_true_cfg : float;
  d_timestep_to_start_cfg : Z;
  d_neg_txt : option Tensor;
  d_neg_txt_ids : option Tensor;
  d_neg_vec : option Tensor
}.

(** ** The identity extractor and the denoising loop, from the specification *)

(** Modelled from the spec: [PuLIDPipeline.get_id_embedding] (package
    [pulid]) is not under src/.  Section 4.3: given the reference image and
    the flag [cal_uncond], it "returns a conditional identity embedding, and,
    only if [cal_uncond] is true, an unconditional counterpart; otherwise the
    second value is absent (not a placeholder)". *)
Definition get_id_embedding (image : NumpyImage) (cal_uncond : bool)
  : Tensor * option Tensor :=
  (pulid_id_embedding image,
   if cal_uncond then Some (pulid_uncond_id_embedding image) else None).

(** Modelled from the spec: step 2 of section 4.4 (part of [denoise], which
    is not under src/).  The identity embedding reaches a denoiser call, with
    its weight, when the step index has reached [start_step] and an embedding
    is present; otherwise the call has no identity conditioning. *)
Definition identity_conditioning (a : DenoiseArgs) (i : Z) (e : option Tensor)
  : option (Tensor * float) :=
  if d_start_step a <=? i
  then option_map (fun emb => (emb, d_id_weight a)) e
  else None.

(** Modelled from the spec: step 1 of section 4.4, with step 2; the
    evaluation on the positive conditioning. *)
Definition positive_prediction (a : DenoiseArgs) (i : Z) (img : Tensor) (t_curr : float)
  : Tensor :=
  flux_forward img (d_img_ids a) (Some (d_txt a)) (Some (d_txt_ids a)) (Some (d_vec a))
    t_curr (d_guidance a) (identity_conditioning a i (d_id a)).

(** Modelled from the spec: the second evaluation of step 3, on the
    negative conditioning and the unconditional identity embedding. *)
Definition negative_prediction (a : DenoiseArgs) (i : Z) (img : Tensor) (t_curr : float)
  : Tensor :=
  flux_forward img (d_img_ids a) (d_neg_txt a) (d_neg_txt_ids a) (d_neg_vec a)
    t_curr (d_guidance a) (identity_conditioning a i (d_uncond_id a)).

(** Modelled from the spec: steps 1 to 3 of one transition.  Under true CFG
    and from step [timestep_to_start_cfg] on, the prediction is
    [negative + true_cfg * (positive - negative)]; otherwise it is the
    positive one. *)
Definition step_prediction (a : DenoiseArgs) (i : Z) (img : Tensor) (t_curr : float)
  : Tensor :=
  let pred := positive_prediction a i img t_curr in
  if use_true_cfg_of (d_true_cfg a) && (d_timestep_to_start_cfg a <=? i)
  then cfg_combine (negative_prediction a i img t_curr) (d_true_cfg a) pred
  else pred.

(** Modelled from the spec: [flux.sampling.denoise] is not under src/.
    Section 4.4: one state per consumed pair [(t_current, t_next)] of the
    schedule, in order; each transition evaluates the denoiser (steps 1 to 3)
    and advances the latent by an Euler update (step 4); the final latent is
    the result.  [i] is the index of the pair that heads [ts]. *)
Fixpoint denoise_from (a : DenoiseArgs) (i : Z) (img : Tensor) (ts : list float)
  : Tensor :=
  match ts with
  | [] => img
  | t_curr :: rest =>
      match rest with
      | [] => img
      | t_next :: _ =>
          denoise_from a (i + 1)
            (euler_step img t_curr t_next (step_prediction a i img t_curr)) rest
      end
  end.

(** Modelled from the spec: the loop started on the packed noise, at step
    index 0, over the whole schedule. *)
Definition denoise (a : DenoiseArgs) : Tensor :=
  denoise_from a 0 (d_img a) (d_timesteps a).

(** Modelled from the spec: the loop of section 4.4 without step 3, which
    yields what section 8 calls the positive-only output. *)
Fixpoint denoise_positive_only_from (a : DenoiseArgs) (i : Z) (img : Tensor)
  (ts : list float) : Tensor :=
  match ts with
  | [] => img
  | t_curr :: rest =>
      match rest with
      | [] => img
      | t_next :: _ =>
          denoise_positive_only_from a (i + 1)
            (euler_step img t_curr t_next (positive_prediction a i img t_curr)) rest
      end
  end.

(** Modelled from the spec: the positive-only loop over the whole schedule. *)
Definition denoise_positive_only (a : DenoiseArgs) : Tensor :=
  denoise_positive_only_from a 0 (d_img a) (d_timesteps a).

(** ** From the decoded tensor to bytes, lines 144 to 148 *)

(** [x.clamp(-1, 1)] on one entry. *)
Definition clamp (lo hi v : Q) : Q := Qmin (Qmax v lo) hi.

(** [127.5 * (x + 1.0)] on one entry. *)
Definition rescale (v : Q) : Q := ((255 # 2) * (v + 1))%Q.

(** [.byte()] on one entry: the fraction is dropped (towards zero) and the
    integer is reduced to eight bits. *)
Definition to_byte (v : Q) : Z :=
  (if Qle_bool 0 v then Qfloor v else Qceiling v) mod 256.

Definition map3 {X Y : Type} (f : X -> Y) (x : list (list (list X)))
  : list (list (list Y)) :=
  map (map (map f)) x.

Definition zip_cons {X : Type} (row : list X) (cols : list (list X)) : list (list X) :=
  map (fun p => fst p :: snd p) (combine row cols).

(** Exchange of the two outer axes of a rectangular nested list. *)
Fixpoint transpose {X : Type} (rows : list (list X)) : list (list X) :=
  match rows with
  | [] => []
  | row :: rest =>
      match rest with
      | [] => map (fun v => [v]) row
      | _ :: _ => zip_cons row (transpose rest)
      end
  end.

(** [rearrange(x, "c h w -> h w c")] *)
Definition rearrange_chw_hwc {X : Type} (x : list (list (list X))) : list (list (list X)) :=
  map transpose (transpose x).


(** [x.clamp(lo, hi)] on an entry: an infinity goes to the bound on its
    side, not-a-number stays. *)
Definition clamp_entry (lo hi : Q) (e : Entry) : Entry :=
  match e with
  | Num q => Num (clamp lo hi q)
  | PosInf => Num hi
  | NegInf => Num lo
  | NaN => NaN
  end.

(** [127.5 * (x + 1.0)] on an entry. *)
Definition rescale_entry (e : Entry) : Entry :=
  match e with
  | Num q => Num (rescale q)
  | PosInf => PosInf
  | NegInf => NegInf
  | NaN => NaN
  end.

(** [.byte()] on an entry. *)
Definition byte_entry (e : Entry) : Z :=
  match e with
  | Num q => to_byte q
  | _ => non_finite_to_byte e mod 256
  end.

(** Lines 144 to 148 on the decoded batch. *)
Definition to_byte_image (decoded : Batch Pixels) : ByteImage :=
  let x := batch_map (map3 (clamp_entry (-1) 1)) decoded in
  let x := rearrange_chw_hwc (sample0 x) in
  map3 byte_entry (map3 rescale_entry x).

(** ** Calls and writes, in order *)

(** One entry per call of a collaborator and per write to a model handle.  A
    stage that reads a handle records where that handle is at the time. *)
Inductive Event : Type :=
| EvLoad (h : Handle) (d : Device)
| EvSetMaxLength (n : Z)
| EvMove (h : Handle) (d : Device)
| EvEmptyCache
| EvTorchSeed (drawn : Z)
| EvResize (image : NumpyImage) (resize_long_edge : Z)
| EvGetIdEmbedding (image : NumpyImage) (cal_uncond : bool)
| EvGetNoise (num_samples h w : Z) (d : Device) (noise_seed : Z)
| EvGetSchedule (steps image_seq_len : Z) (shift : bool)
| EvPrepare (t5_at clip_at : Device) (text : string)
| EvDenoise (model_at : Device) (a : DenoiseArgs)
| EvUnpack (h w : Z)
| EvDecode (decoder_at : Device).

(** A computation over the generator object that logs its events. *)
Definition M (A : Type) : Type := FluxGenerator -> A * FluxGenerator * list Event.

Definition ret {A : Type} (a : A) : M A := fun g => (a, g, []).

Definition bind {A C : Type} (m : M A) (k : A -> M C) : M C :=
  fun g =>
    let '(a, g1, tr1) := m g in
    let '(c, g2, tr2) := k a g1 in
    (c, g2, tr1 ++ tr2).

Definition get : M FluxGenerator := fun g => (g, g, []).

Definition log (e : Event) : M unit := fun g => (tt, g, [e]).

Definition modify (f : FluxGenerator -> FluxGenerator) : M unit :=
  fun g => (tt, f g, []).

Definition when (c : bool) (m : M unit) : M unit := if c then m else ret tt.

Notation "x <- m ;; k" := (bind m (fun x => k))
  (at level 61, m at next level, right associativity).
Notation "m ;;; k" := (bind m (fun _ => k))
  (at level 61, right associativity).

Definition result_of {A : Type} (run : A * FluxGenerator * list Event) : A :=
  fst (fst run).
Definition state_of {A : Type} (run : A * FluxGenerator * list Event) : FluxGenerator :=
  snd (fst run).
Definition trace_of {A : Type} (run : A * FluxGenerator * list Event) : list Event :=
  snd run.

(** *** Writes to the generator object *)

Definition with_t5 (g : FluxGenerator) (v : T5Embedder) : FluxGenerator :=
  {| device := device g; offload := offload g; model_name := model_name g;
     model := model g; ae := ae g; t5 := v; clip := clip g;
     pulid_model := pulid_model g |}.

Definition with_clip (g : FluxGenerator) (v : ClipEmbedder) : FluxGenerator :=
  {| device := device g; offload := offload g; model_name := model_name g;
     model := model g; ae := ae g; t5 := t5 g; clip := v;
     pulid_model := pulid_model g |}.

Definition with_model (g : FluxGenerator) (v : FluxModel) : FluxGenerator :=
  {| device := device g; offload := offload g; model_name := model_name g;
     model := v; ae := ae g; t5 := t5 g; clip := clip g;
     pulid_model := pulid_model g |}.

Definition with_ae (g : FluxGenerator) (v : AutoEncoder) : FluxGenerator :=
  {| device := device g; offload := offload g; model_name := model_name g;
     model := model g; ae := v; t5 := t5 g; clip := clip g;
     pulid_model := pulid_model g |}.

Definition with_pulid_model (g : FluxGenerator) (v : PuLIDPipeline) : FluxGenerator :=
  {| device := device g; offload := offload g; model_name := model_name g;
     model := model g; ae := ae g; t5 := t5 g; clip := clip g;
     pulid_model := v |}.

(** [flux_generator.t5.max_length = n], line 57. *)
Definition set_t5_max_length (n : Z) : M unit :=
  modify (fun g => with_t5 g {| t5_device := t5_device (t5 g); max_length := n |}) ;;;
  log (EvSetMaxLength n).

(** [flux_generator.t5 = flux_generator.t5.to(d)], also [.cpu()]. *)
Definition move_t5 (d : Device) : M unit :=
  modify (fun g => with_t5 g {| t5_device := d; max_length := max_length (t5 g) |}) ;;;
  log (EvMove H_t5 d).

Definition move_clip (d : Device) : M unit :=
  modify (fun g => with_clip g {| clip_device := d |}) ;;;
  log (EvMove H_clip d).

Definition move_model (d : Device) : M unit :=
  modify (fun g => with_model g {| model_device := d |}) ;;;
  log (EvMove H_model d).

(** [flux_generator.ae.decoder.to(d)], also [.cpu()]. *)
Definition move_decoder (d : Device) : M unit :=
  modify (fun g => with_ae g {| encoder_device := encoder_device (ae g);
                                decoder_device := d |}) ;;;
  log (EvMove H_ae_decoder d).

Definition empty_cache : M unit := log EvEmptyCache.

(** *** Calls of the collaborators *)

(** [torch.Generator(device="cpu").seed()]; [entropy] is what the operating
    system's random source delivers to this request. *)
Definition torch_generator_seed (entropy : Z) : M Z :=
  let s := uint64_wrap entropy in
  log (EvTorchSeed s) ;;; ret s.

Definition call_resize (image : NumpyImage) (long_edge : Z) : M NumpyImage :=
  log (EvResize image long_edge) ;;; ret (resize_numpy_image_long image long_edge).

(** [flux_generator.pulid_model.get_id_embedding(image, cal_uncond=...)].
    Modelled from the spec: the write of [debug_img_list], which line 149
    reads back; section 6 calls those images "a sequence of auxiliary debug
    images produced by the identity extractor". *)
Definition call_get_id_embedding (image : NumpyImage) (cal_uncond : bool)
  : M (Tensor * option Tensor) :=
  log (EvGetIdEmbedding image cal_uncond) ;;;
  modify (fun g =>
            with_pulid_model g
              {| debug_img_list :=
                   pulid_debug_images (debug_img_list (pulid_model g))
                     image cal_uncond |}) ;;;
  ret (get_id_embedding image cal_uncond).

Definition call_get_noise (n h w : Z) (d : Device) (s : Z) : M Tensor :=
  log (EvGetNoise n h w d s) ;;; ret (get_noise n h w d s).

Definition call_get_schedule (steps seq_len : Z) (shift : bool) : M (list float) :=
  log (EvGetSchedule steps seq_len shift) ;;; ret (get_schedule steps seq_len shift).

(** [prepare(t5=flux_generator.t5, clip=flux_generator.clip, img=x, prompt=p)] *)
Definition call_prepare (x : Tensor) (p : string) : M (Inp Tensor) :=
  g <- get ;;
  log (EvPrepare (t5_device (t5 g)) (clip_device (clip g)) p) ;;;
  ret (prepare (max_length (t5 g)) x p).

(** [denoise(flux_generator.model, ...)] *)
Definition call_denoise (a : DenoiseArgs) : M Tensor :=
  g <- get ;;
  log (EvDenoise (model_device (model g)) a) ;;;
  ret (denoise a).

Definition call_unpack (x : Tensor) (h w : Z) : M Tensor :=
  log (EvUnpack h w) ;;; ret (unpack x h w).

(** [flux_generator.ae.decode(x)] *)
Definition call_decode (x : Tensor) : M (Batch Pixels) :=
  g <- get ;;
  log (EvDecode (decoder_device (ae g))) ;;;
  ret (ae_decode x).

(** ** [generate_image], lines 42 to 149

    The calls of [print] and [time.perf_counter] and the [inference_mode]
    and [autocast] contexts touch neither the generator object nor a value
    that is returned, and are left out.  The generator object is read where
    the source reads it. *)

(** [x.shape[-1] * x.shape[-2] // 4], line 100. *)
Definition image_seq_len (x : Tensor) : Z :=
  shape_last x * shape_last_but_one x / 4.

(** Lines 116 to 123: the keyword arguments, from the positive bundle [inp],
    the negative bundle [inp_neg] (or [None]) and the request. *)
Definition denoise_args (r : Request) (opts : SamplingOptions) (use_true_cfg : bool)
  (inp : Inp Tensor) (inp_neg : option (Inp Tensor)) (timesteps : list float)
  (id_embeddings uncond_id_embeddings : option Tensor) : DenoiseArgs :=
  {| d_img := inp_img inp;
     d_img_ids := inp_img_ids inp;
     d_txt := inp_txt inp;
     d_txt_ids := inp_txt_ids inp;
     d_vec := inp_vec inp;
     d_timesteps := timesteps;
     d_guidance := o_guidance opts;
     d_id := id_embeddings;
     d_id_weight := id_weight r;
     d_start_step := start_step r;
     d_uncond_id := uncond_id_embeddings;
     d_true_cfg := true_cfg r;
     d_timestep_to_start_cfg := timestep_to_start_cfg r;
     d_neg_txt := if use_true_cfg then option_map inp_txt inp_neg else None;
     d_neg_txt_ids := if use_true_cfg then option_map inp_txt_ids inp_neg else None;
     d_neg_vec := if use_true_cfg then option_map inp_vec inp_neg else None |}.

Definition generate_image (entropy : Z) (r : Request) : M Response :=
  (* line 57 *)
  set_t5_max_length (max_sequence_length r) ;;;
  (* lines 59 to 61 *)
  let seed0 := py_int (seed r) in
  let seed1 := if seed0 =? -1 then None else Some seed0 in
  (* lines 63 to 70 *)
  let opts :=
    {| o_prompt := prompt r; o_width := width r; o_height := height r;
       o_num_steps := num_steps r; o_guidance := guidance r; o_seed := seed1 |} in
  (* lines 72 and 73 *)
  resolved <- match o_seed opts with
              | None => torch_generator_seed entropy
              | Some s => ret s
              end ;;
  let opts := set_o_seed opts (Some resolved) in
  (* from here on [opts.seed] is [resolved] *)
  (* line 77 *)
  let use_true_cfg := use_true_cfg_of (true_cfg r) in
  (* lines 79 to 84 *)
  ids <- match id_image r with
         | Some image =>
             resized <- call_resize image 1024 ;;
             e <- call_get_id_embedding resized use_true_cfg ;;
             ret (Some (fst e), snd e)
         | None => ret (None, None)
         end ;;
  let id_embeddings := fst ids in
  let uncond_id_embeddings := snd ids in
  (* lines 89 to 102 *)
  g <- get ;;
  x <- call_get_noise 1 (o_height opts) (o_width opts) (device g) resolved ;;
  timesteps <- call_get_schedule (o_num_steps opts) (image_seq_len x) true ;;
  (* lines 104 to 107 *)
  g <- get ;;
  when (offload g) (move_t5 (device g) ;;; move_clip (device g)) ;;;
  inp <- call_prepare x (o_prompt opts) ;;
  inp_neg <- (if use_true_cfg
              then p <- call_prepare x (neg_prompt r) ;; ret (Some p)
              else ret None) ;;
  (* lines 110 to 113 *)
  g <- get ;;
  when (offload g) (move_t5 CPU ;;; move_clip CPU ;;; empty_cache ;;;
                    move_model (device g)) ;;;
  (* lines 116 to 123 *)
  x <- call_denoise (denoise_args r opts use_true_cfg inp inp_neg timesteps
                       id_embeddings uncond_id_embeddings) ;;
  (* lines 126 to 129 *)
  g <- get ;;
  when (offload g) (move_model CPU ;;; empty_cache ;;;
                    move_decoder (tensor_device x)) ;;;
  (* lines 132 to 134 *)
  x <- call_unpack (tensor_float x) (o_height opts) (o_width opts) ;;
  x <- call_decode x ;;
  (* lines 136 to 138 *)
  g <- get ;;
  when (offload g) (move_decoder CPU ;;; empty_cache) ;;;
  (* lines 144 to 149 *)
  let img := to_byte_image x in
  g <- get ;;
  ret {| resp_image := img;
         resp_seed := py_str resolved;
         resp_debug := debug_img_list (pulid_model g) |}.

(** ** Start-up and the serving session *)

(** [get_models(name, device, offload)], lines 16 to 22; [model.eval()]
    changes no field that is modelled. *)
Definition get_models (name : string) (dev : Device) (off : bool)
  : (FluxModel * AutoEncoder * T5Embedder * ClipEmbedder) * list Event :=
  let t5v := {| t5_device := dev; max_length := 128 |} in
  let clipv := {| clip_device := dev |} in
  let where_ := if off then CPU else dev in
  let modelv := {| model_device := where_ |} in
  let aev := {| encoder_device := where_; decoder_device := where_ |} in
  ((modelv, aev, t5v, clipv),
   [EvLoad H_t5 dev; EvLoad H_clip dev; EvLoad H_model where_; EvLoad H_ae where_]).

(** [FluxGenerator.__init__], lines 26 to 36. *)
Definition FluxGenerator_init : FluxGenerator * list Event :=
  let dev := CUDA in
  let off := false in
  let name := "flux-dev"%string in
  let '((modelv, aev, t5v, clipv), tr) := get_models name dev off in
  ({| device := dev; offload := off; model_name := name;
      model := modelv; ae := aev; t5 := t5v; clip := clipv;
      pulid_model := {| debug_img_list := pulid_initial_debug_imgs |} |},
   tr ++ [EvLoad H_pulid CUDA]).

(** The command line of the [__main__] block, lines 283 to 292. *)
Record Args : Type := {
  args_name : string;
  args_device : Device;
  args_offload : bool;
  args_port : Z;
  args_dev : bool;
  args_pretrained_model : option string
}.

(** [create_demo(args, model_name, device, offload)], lines 173 to 277: the
    form it builds has one handler, [generate_image], bound to the thirteen
    inputs in the order of its parameters (lines 270 to 275).  None of the four
    arguments reaches the handler or the generator object. *)
Definition create_demo (args : Args) (name : string) (dev : Device) (off : bool)
  : Z -> Request -> M Response :=
  generate_image.

(** The requests of a session, served one after the other, each with the
    entropy it would draw. *)
Fixpoint serve (handler : Z -> Request -> M Response) (reqs : list (Z * Request))
  : M (list Response) :=
  match reqs with
  | [] => ret []
  | (entropy, r) :: rest =>
      resp <- handler entropy r ;;
      resps <- serve handler rest ;;
      ret (resp :: resps)
  end.

(** The process: the module body builds [flux_generator] (line 39), the
    [__main__] block builds the form (line 294), and the requests the form
    receives go to its handler one after the other. *)
Definition main (args : Args) (reqs : list (Z * Request))
  : list Response * FluxGenerator * list Event :=
  let '(g0, tr0) := FluxGenerator_init in
  let demo := create_demo args (args_name args) (args_device args) (args_offload args) in
  let '(resps, g1, tr1) := serve demo reqs g0 in
  (resps, g1, tr0 ++ tr1).

(** ** Reading a trace *)

Definition drawn_seeds (tr : list Event) : list Z :=
  flat_map (fun e => match e with EvTorchSeed s => [s] | _ => [] end) tr.

Definition noise_seeds (tr : list Event) : list Z :=
  flat_map (fun e => match e with EvGetNoise _ _ _ _ s => [s] | _ => [] end) tr.

Definition schedule_calls (tr : list Event) : list (Z * Z * bool) :=
  flat_map (fun e => match e with
                     | EvGetSchedule n len sh => [(n, len, sh)]
                     | _ => []
                     end) tr.

Definition prepared_prompts (tr : list Event) : list string :=
  flat_map (fun e => match e with EvPrepare _ _ p => [p] | _ => [] end) tr.

Definition denoise_calls (tr : list Event) : list DenoiseArgs :=
  flat_map (fun e => match e with EvDenoise _ a => [a] | _ => [] end) tr.

Definition resize_calls (tr : list Event) : list (NumpyImage * Z) :=
  flat_map (fun e => match e with EvResize im n => [(im, n)] | _ => [] end) tr.

Definition extractor_calls (tr : list Event) : list (NumpyImage * bool) :=
  flat_map (fun e => match e with EvGetIdEmbedding im c => [(im, c)] | _ => [] end) tr.

Definition loads (tr : list Event) : list (Handle * Device) :=
  flat_map (fun e => match e with EvLoad h d => [(h, d)] | _ => [] end) tr.

(** The relocations of the offload policy. *)
Definition is_relocation (e : Event) : bool :=
  match e with
  | EvMove _ _ | EvEmptyCache => true
  | _ => false
  end.

(** The stages that read a model handle. *)
Definition is_stage (e : Event) : bool :=
  match e with
  | EvPrepare _ _ _ | EvDenoise _ _ | EvDecode _ => true
  | _ => false
  end.

Definition relocations_and_stages (tr : list Event) : list Event :=
  filter (fun e => is_relocation e || is_stage e) tr.

(** The moves of a handle, [.to(...)] and [.cpu()], in a trace. *)
Definition moves (tr : list Event) : list Event :=
  filter (fun e => match e with EvMove _ _ => true | _ => false end) tr.

(** The writes to a model handle: loading it, moving it, setting a field,
    and the extraction, which rewrites the debug images of the identity
    pipeline. *)
Definition is_handle_write (e : Event) : bool :=
  match e with
  | EvLoad _ _ | EvMove _ _ | EvSetMaxLength _ | EvGetIdEmbedding _ _ => true
  | _ => false
  end.

Definition handle_writes (tr : list Event) : list Event := filter is_handle_write tr.

(** ** Vocabulary of the statements *)

(** The seed a request runs with: the 64-bit draw when the form says [-1],
    the given integer otherwise. *)
Definition resolved_seed (entropy : Z) (r : Request) : Z :=
  if seed r =? -1 then uint64_wrap entropy else seed r.

(** The initial latent of a request, line 89. *)
Definition initial_noise (entropy : Z) (r : Request) (g : FluxGenerator) : Tensor :=
  get_noise 1 (height r) (width r) (device g) (resolved_seed entropy r).

(** The negative-prompt bundle of a request, line 107. *)
Definition negative_bundle (entropy : Z) (r : Request) (g : FluxGenerator) : Inp Tensor :=
  prepare (max_sequence_length r) (initial_noise entropy r g) (neg_prompt r).

(** Lines 132 to 148 applied to a final latent. *)
Definition image_of_latent (r : Request) (x : Tensor) : ByteImage :=
  to_byte_image (ae_decode (unpack (tensor_float x) (height r) (width r))).

(** Two requests that agree on every argument but [start_step] and
    [id_weight]. *)
Definition same_but_id_controls (r1 r2 : Request) : Prop :=
  width r1 = width r2 /\ height r1 = height r2 /\ num_steps r1 = num_steps r2 /\
  guidance r1 = guidance r2 /\ seed r1 = seed r2 /\ prompt r1 = prompt r2 /\
  id_image r1 = id_image r2 /\ neg_prompt r1 = neg_prompt r2 /\
  true_cfg r1 = true_cfg r2 /\
  timestep_to_start_cfg r1 = timestep_to_start_cfg r2 /\
  max_sequence_length r1 = max_sequence_length r2.

(** Two generator objects with the same fields of their own: the device,
    the offload flag and the model name.  The handles may differ. *)
Definition same_generator_fields (g1 g2 : FluxGenerator) : Prop :=
  device g1 = device g2 /\ offload g1 = offload g2 /\
  model_name g1 = model_name g2.

(** The debug images of the identity pipeline after a request: rewritten by
    the extraction when the request has a reference image, else as found. *)
Definition request_debug_imgs (r : Request) (g : FluxGenerator) : list NumpyImage :=
  match id_image r with
  | Some image =>
      pulid_debug_images (debug_img_list (pulid_model g))
        (resize_numpy_image_long image 1024) (use_true_cfg_of (true_cfg r))
  | None => debug_img_list (pulid_model g)
  end.

(** What one request writes to the handles when nothing is offloaded. *)
Definition request_handle_writes (r : Request) : list Event :=
  EvSetMaxLength (max_sequence_length r)
  :: match id_image r with
     | Some image =>
         [EvGetIdEmbedding (resize_numpy_image_long image 1024)
            (use_true_cfg_of (true_cfg r))]
     | None => []
     end.


(** Lines 144 to 148 on one entry of the decoded tensor. *)
Definition entry_byte (e : Entry) : Z :=
  byte_entry (rescale_entry (clamp_entry (-1) 1 e)).

Definition long_edge (image : NumpyImage) : Z :=
  Z.max (image_height image) (image_width image).

(** Modelled from the spec: [pulid.utils.resize_numpy_image_long] is not
    under src/ and is a field of the backend.  Section 4.3 says of it only
    that the reference image is "resized to a bounded long-edge dimension
    before extraction"; this is that bound, for a positive edge length. *)
Definition resize_bounds_long_edge : Prop :=
  forall (image : NumpyImage) (n : Z),
    0 < n -> long_edge (resize_numpy_image_long image n) <= n.

(** What the tensor operations of the backend do to the device of a latent:
    noise is created on the requested device, and packing it for the
    denoiser and advancing it leave it there. *)
Definition latent_stays_on_device : Prop :=
  (forall n h w d s, tensor_device (get_noise n h w d s) = d) /\
  (forall ml x p, tensor_device (inp_img (prepare ml x p)) = tensor_device x) /\
  (forall x t1 t2 pred, tensor_device (euler_step x t1 t2 pred) = tensor_device x).

(** ** The run of one request, written out

    What [generate_image] passes to [denoise] and the events it logs, as
    functions of the request and of the generator it starts from; the lemmas
    [generate_image_trace] and [generate_image_result] below show that the
    embedding of the source produces exactly these. *)

Definition request_id_embeddings (r : Request) : option Tensor * option Tensor :=
  match id_image r with
  | Some image =>
      let e := get_id_embedding (resize_numpy_image_long image 1024)
                 (use_true_cfg_of (true_cfg r)) in
      (Some (fst e), snd e)
  | None => (None, None)
  end.

Definition request_denoise_args (entropy : Z) (r : Request) (g : FluxGenerator)
  : DenoiseArgs :=
  let x := initial_noise entropy r g in
  denoise_args r
    {| o_prompt := prompt r; o_width := width r; o_height := height r;
       o_num_steps := num_steps r; o_guidance := guidance r;
       o_seed := Some (resolved_seed entropy r) |}
    (use_true_cfg_of (true_cfg r))
    (prepare (max_sequence_length r) x (prompt r))
    (if use_true_cfg_of (true_cfg r) then Some (negative_bundle entropy r g) else None)
    (get_schedule (num_steps r) (image_seq_len x) true)
    (fst (request_id_embeddings r)) (snd (request_id_embeddings r)).

Definition request_trace (entropy : Z) (r : Request) (g : FluxGenerator) : list Event :=
  let dev := device g in
  let off := offload g in
  let a := request_denoise_args entropy r g in
  let t5_at := if off then dev else t5_device (t5 g) in
  let clip_at := if off then dev else clip_device (clip g) in
  let model_at := if off then dev else model_device (model g) in
  let decoder_at :=
    if off then tensor_device (denoise a) else decoder_device (ae g) in
  [EvSetMaxLength (max_sequence_length r)]
  ++ (if seed r =? -1 then [EvTorchSeed (uint64_wrap entropy)] else [])
  ++ match id_image r with
     | Some image =>
         [EvResize image 1024;
          EvGetIdEmbedding (resize_numpy_image_long image 1024)
            (use_true_cfg_of (true_cfg r))]
     | None => []
     end
  ++ [EvGetNoise 1 (height r) (width r) dev (resolved_seed entropy r);
      EvGetSchedule (num_steps r) (image_seq_len (initial_noise entropy r g)) true]
  ++ (if off then [EvMove H_t5 dev; EvMove H_clip dev] else [])
  ++ [EvPrepare t5_at clip_at (prompt r)]
  ++ (if use_true_cfg_of (true_cfg r)
      then [EvPrepare t5_at clip_at (neg_prompt r)] else [])
  ++ (if off
      then [EvMove H_t5 CPU; EvMove H_clip CPU; EvEmptyCache; EvMove H_model dev]
      else [])
  ++ [EvDenoise model_at a]
  ++ (if off
      then [EvMove H_model CPU; EvEmptyCache;
            EvMove H_ae_decoder (tensor_device (denoise a))]
      else [])
  ++ [EvUnpack (height r) (width r); EvDecode decoder_at]
  ++ (if off then [EvMove H_ae_decoder CPU; EvEmptyCache] else []).

(** ** Vocabulary of the further properties *)

(** A request with another seed, all else equal. *)
Definition with_seed (r : Request) (s : Z) : Request :=
  {| width := width r; height := height r; num_steps := num_steps r;
     start_step := start_step r; guidance := guidance r; seed := s;
     prompt := prompt r; id_image := id_image r; id_weight := id_weight r;
     neg_prompt := neg_prompt r; true_cfg := true_cfg r;
     timestep_to_start_cfg := timestep_to_start_cfg r;
     max_sequence_length := max_sequence_length r |}.

(** A request with another negative prompt, all else equal. *)
Definition with_neg_prompt (r : Request) (p : string) : Request :=
  {| width := width r; height := height r; num_steps := num_steps r;
     start_step := start_step r; guidance := guidance r; seed := seed r;
     prompt := prompt r; id_image := id_image r; id_weight := id_weight r;
     neg_prompt := p; true_cfg := true_cfg r;
     timestep_to_start_cfg := timestep_to_start_cfg r;
     max_sequence_length := max_sequence_length r |}.

(** A generator whose T5 encoder holds another token budget, as an earlier
    request may have left it. *)
Definition with_max_length (g : FluxGenerator) (n : Z) : FluxGenerator :=
  with_t5 g {| t5_device := t5_device (t5 g); max_length := n |}.

(** The generator a request leaves behind, written out: the token budget of
    the request, and under offload every handle the policy moves on the CPU. *)
Definition state_after_request (r : Request) (g : FluxGenerator) : FluxGenerator :=
  {| device := device g;
     offload := offload g;
     model_name := model_name g;
     model := if offload g then {| model_device := CPU |} else model g;
     ae := if offload g
           then {| encoder_device := encoder_device (ae g); decoder_device := CPU |}
           else ae g;
     t5 := {| t5_device := if offload g then CPU else t5_device (t5 g);
              max_length := max_sequence_length r |};
     clip := if offload g then {| clip_device := CPU |} else clip g;
     pulid_model := {| debug_img_list := request_debug_imgs r g |} |}.

(** Two generator objects that differ at most in the identity pipeline. *)
Definition same_but_identity_pipeline (g1 g2 : FluxGenerator) : Prop :=
  device g1 = device g2 /\ offload g1 = offload g2 /\
  model_name g1 = model_name g2 /\ model g1 = model g2 /\ ae g1 = ae g2 /\
  t5 g1 = t5 g2 /\ clip g1 = clip g2.

(** An event of a stage or of the noise generator that names a device names
    CUDA. *)
Definition on_cuda (e : Event) : Prop :=
  match e with
  | EvGetNoise _ _ _ d _ => d = CUDA
  | EvPrepare t5_at clip_at _ => t5_at = CUDA /\ clip_at = CUDA
  | EvDenoise model_at _ => model_at = CUDA
  | EvDecode decoder_at => decoder_at = CUDA
  | _ => True
  end.

(** Lines 144 to 148 on one entry. *)
Definition pixel_byte (v : Q) : Z := to_byte (rescale (clamp (-1) 1 v)).

(** A nested list of [a] lists of [b] lists of [c] entries. *)
Definition has_shape {X : Type} (a b c : nat) (x : list (list (list X))) : Prop :=
  List.length x = a /\
  Forall (fun plane => List.length plane = b /\ Forall (fun row => List.length row = c) plane) x.

(** Entry [(i, j, k)] of a nested list, [d] where there is none. *)
Definition entry3 {X : Type} (x : list (list (list X))) (i j k : nat) (d : X) : X :=
  nth k (nth j (nth i x []) []) d.

End Pipeline.

(** ** Concrete requests on the small backend *)

(** The generator as [FluxGenerator.__init__] leaves it, with the offload
    flag as given. *)
Definition toy_generator (off : bool) : @FluxGenerator toy_backend :=
  {| device := CUDA; offload := off; model_name := "flux-dev";
     model := {| model_device := if off then CPU else CUDA |};
     ae := {| encoder_device := if off then CPU else CUDA;
              decoder_device := if off then CPU else CUDA |};
     t5 := {| t5_device := CUDA; max_length := 128 |};
     clip := {| clip_device := CUDA |};
     pulid_model := @Build_PuLIDPipeline toy_backend [] |}.

(** The form's defaults: no reference image, seed [-1], true CFG scale 1. *)
Definition toy_request : @Request toy_backend :=
  {| width := 896; height := 1152; num_steps := 2; start_step := 0;
     guidance := 4%float; seed := -1; prompt := "portrait, color, cinematic";
     id_image := None; id_weight := 1%float;
     neg_prompt := "bad quality"; true_cfg := 1%float;
     timestep_to_start_cfg := 1; max_sequence_length := 256 |}.

(** The same form with [start_step] and [id_weight] changed. *)
Definition toy_request_late_id : @Request toy_backend :=
  {| width := 896; height := 1152; num_steps := 2; start_step := 4;
     guidance := 4%float; seed := -1; prompt := "portrait, color, cinematic";
     id_image := None; id_weight := 3%float;
     neg_prompt := "bad quality"; true_cfg := 1%float;
     timestep_to_start_cfg := 1; max_sequence_length := 256 |}.

(** A reference image of 3000 by 2000 pixels. *)
Definition toy_face : @NumpyImage toy_backend := (3000, 2000).

(** A request with that image, an explicit seed and true CFG scale 5. *)
Definition toy_request_with_face : @Request toy_backend :=
  {| width := 896; height := 1152; num_steps := 2; start_step := 1;
     guidance := 1%float; seed := 3811899118709451814;
     prompt := "portrait, made of ice sculpture";
     id_image := Some toy_face; id_weight := 1%float;
     neg_prompt := "bad quality"; true_cfg := 5%float;
     timestep_to_start_cfg := 1; max_sequence_length := 128 |}.

Definition toy_args (off : bool) : Args :=
  {| args_name := "flux-dev"; args_device := CUDA; args_offload := off;
     args_port := 7860; args_dev := false; args_pretrained_model := None |}.

(** A decoded batch of one sample with three channels, two rows and two
    columns. *)
Definition toy_decoded : Batch Pixels :=
  {| sample0 := [[[Num (-2); Num (-1 # 2)]; [Num 0; Num (1 # 3)]];
                 [[Num 1; Num 3]; [Num (1 # 2); Num (-1)]];
                 [[Num (9 # 10); Num (-9 # 10)]; [Num (1 # 255); Num (2 # 1)]]];
     more_samples := [] |}.



(** A session of two requests: one with a reference image, then the form's
    defaults. *)
Definition toy_session : list (Z * @Request toy_backend) :=
  [(2, toy_request_with_face); (1, toy_request)].

(** * Properties *)

Section Facts.
Context `{B : Backend}.

(** ** Running one request *)

Ltac run_pipeline :=
  unfold generate_image, set_t5_max_length, torch_generator_seed, call_resize,
    call_get_id_embedding, call_get_noise, call_get_schedule, call_prepare,
    call_denoise, call_unpack, call_decode, move_t5, move_clip, move_model,
    move_decoder, empty_cache, py_int, when;
  unfold bind, ret, get, log, modify;
  cbn -[uint64_wrap denoise to_byte_image Z.eqb get_id_embedding denoise_args
        use_true_cfg_of].

Ltac run_request r g :=
  let Eseed := fresh "Eseed" in
  let Eimage := fresh "Eimage" in
  let Ecfg := fresh "Ecfg" in
  let off := fresh "off" in
  destruct g as [? off ? ? ? ? ? ?];
  destruct (seed r =? -1) eqn:Eseed;
  destruct (id_image r) eqn:Eimage;
  destruct (use_true_cfg_of (true_cfg r)) eqn:Ecfg;
  destruct off;
  run_pipeline; rewrite ?Eseed, ?Eimage, ?Ecfg;
  cbn -[uint64_wrap denoise to_byte_image Z.eqb get_id_embedding denoise_args
        use_true_cfg_of];
  rewrite ?Eseed, ?Eimage, ?Ecfg.

Lemma generate_image_trace (entropy : Z) (r : Request) (g : FluxGenerator) :
  trace_of (generate_image entropy r g) = request_trace entropy r g.
Proof.
  unfold request_trace, request_denoise_args, request_id_embeddings,
    negative_bundle, initial_noise, resolved_seed, trace_of.
  run_request r g; reflexivity.
Qed.

Lemma generate_image_result (entropy : Z) (r : Request) (g : FluxGenerator) :
  result_of (generate_image entropy r g) =
  {| resp_image := image_of_latent r (denoise (request_denoise_args entropy r g));
     resp_seed := py_str (resolved_seed entropy r);
     resp_debug := request_debug_imgs r g |}.
Proof.
  unfold image_of_latent, request_denoise_args, request_id_embeddings,
    request_debug_imgs, negative_bundle, initial_noise, resolved_seed, result_of.
  run_request r g; reflexivity.
Qed.

(** A request leaves the device, the offload flag and the model name of the
    generator as they were, and sets the token budget of the T5 encoder. *)
Lemma generate_image_frame (entropy : Z) (r : Request) (g : FluxGenerator) :
  same_generator_fields g (state_of (generate_image entropy r g)) /\
  max_length (t5 (state_of (generate_image entropy r g))) = max_sequence_length r.
Proof.
  unfold same_generator_fields, state_of.
  run_request r g; repeat split; reflexivity.
Qed.

(** Without offload no handle moves. *)
Lemma generate_image_no_offload (entropy : Z) (r : Request) (g : FluxGenerator) :
  offload g = false ->
  let g' := state_of (generate_image entropy r g) in
  model g' = model g /\ ae g' = ae g /\ clip g' = clip g /\
  t5_device (t5 g') = t5_device (t5 g).
Proof.
  unfold state_of.
  run_request r g; cbn; intros Hoff; try discriminate Hoff;
    repeat split; reflexivity.
Qed.

(** ** Seeds *)

Lemma py_str_roundtrip (n : Z) : py_parse_int (py_str n) = Some n.
Proof.
  unfold py_parse_int, py_str.
  rewrite NilZero.isi.
  - cbn. now rewrite DecimalZ.of_to.
  - destruct n; cbn; try discriminate.
    intros E. injection E as E. now apply DecimalPos.Unsigned.to_uint_nonnil in E.
  - destruct n; cbn; try discriminate.
    intros E. injection E as E. now apply DecimalPos.Unsigned.to_uint_nonnil in E.
Qed.

Lemma uint64_wrap_range (entropy : Z) : 0 <= uint64_wrap entropy < 2 ^ 64.
Proof. unfold uint64_wrap. apply Z.mod_pos_bound. reflexivity. Qed.

(** ** The denoising loop *)

(** Two argument records on which every transition predicts the same give
    the same final latent. *)
Lemma denoise_from_ext (a1 a2 : DenoiseArgs) :
  (forall i img t, step_prediction a1 i img t = step_prediction a2 i img t) ->
  forall ts i img, denoise_from a1 i img ts = denoise_from a2 i img ts.
Proof.
  intros Hstep ts.
  induction ts as [|t_curr rest IH]; intros i img; [reflexivity|].
  destruct rest as [|t_next rest']; [reflexivity|].
  change (denoise_from a1 (i + 1)
            (euler_step img t_curr t_next (step_prediction a1 i img t_curr))
            (t_next :: rest') =
          denoise_from a2 (i + 1)
            (euler_step img t_curr t_next (step_prediction a2 i img t_curr))
            (t_next :: rest')).
  rewrite Hstep. apply IH.
Qed.

(** With the gate closed, step 3 never runs. *)
Lemma denoise_from_positive_only (a : DenoiseArgs) :
  use_true_cfg_of (d_true_cfg a) = false ->
  forall ts i img,
    denoise_from a i img ts = denoise_positive_only_from a i img ts.
Proof.
  intros Hgate ts.
  induction ts as [|t_curr rest IH]; intros i img; [reflexivity|].
  destruct rest as [|t_next rest']; [reflexivity|].
  change (denoise_from a (i + 1)
            (euler_step img t_curr t_next (step_prediction a i img t_curr))
            (t_next :: rest') =
          denoise_positive_only_from a (i + 1)
            (euler_step img t_curr t_next (positive_prediction a i img t_curr))
            (t_next :: rest')).
  unfold step_prediction at 1. rewrite Hgate. cbn [andb]. apply IH.
Qed.

(** Without identity embeddings no transition looks at [start_step] or
    [id_weight]. *)
Lemma identity_conditioning_absent (a : DenoiseArgs) (i : Z) :
  identity_conditioning a i None = None.
Proof. unfold identity_conditioning. now destruct (d_start_step a <=? i). Qed.

(** The Euler update keeps the latent where it is, so the loop does. *)
Lemma denoise_from_device (a : DenoiseArgs) :
  (forall x t1 t2 pred, tensor_device (euler_step x t1 t2 pred) = tensor_device x) ->
  forall ts i img, tensor_device (denoise_from a i img ts) = tensor_device img.
Proof.
  intros Heuler ts.
  induction ts as [|t_curr rest IH]; intros i img; [reflexivity|].
  destruct rest as [|t_next rest']; [reflexivity|].
  change (tensor_device
            (denoise_from a (i + 1)
               (euler_step img t_curr t_next (step_prediction a i img t_curr))
               (t_next :: rest')) = tensor_device img).
  rewrite IH. apply Heuler.
Qed.

(** ** Pixels *)

Lemma clamp_range (v : Q) : (-1 <= clamp (-1) 1 v /\ clamp (-1) 1 v <= 1)%Q.
Proof.
  unfold clamp. split.
  - apply Q.min_glb; [apply Q.le_max_r | discriminate].
  - apply Q.le_min_r.
Qed.

Lemma rescale_range (v : Q) :
  (-1 <= v /\ v <= 1)%Q -> (0 <= rescale v /\ rescale v <= 255)%Q.
Proof. unfold rescale. intros [Hlo Hhi]. split; lra. Qed.

(** On a value between 0 and 255 the conversion to a byte is the floor: the
    reduction to eight bits changes nothing. *)
Lemma to_byte_in_range (v : Q) :
  (0 <= v /\ v <= 255)%Q -> to_byte v = Qfloor v /\ 0 <= Qfloor v <= 255.
Proof.
  intros [Hlo Hhi].
  assert (Hfloor : 0 <= Qfloor v <= 255).
  { split.
    - change 0 with (Qfloor (inject_Z 0)). now apply Qfloor_resp_le.
    - change 255 with (Qfloor (inject_Z 255)). now apply Qfloor_resp_le. }
  split; [|exact Hfloor].
  unfold to_byte.
  apply Qle_bool_iff in Hlo. rewrite Hlo.
  apply Z.mod_small. lia.
Qed.
















(** ** The gate on true classifier-free guidance *)

(** C1.  True classifier-free guidance is on exactly when
    [abs(true_cfg - 1.0) > 1e-2].  When it is on, [prepare] runs twice, on
    the prompt and then on the negative prompt, and the one call of
    [denoise] receives the text, text ids and vector of the negative bundle
    together with [timestep_to_start_cfg].  When it is off, [prepare] runs
    once, on the prompt only, the call of [denoise] receives [None] for all
    three negative arguments, and the image returned is the one that the
    loop without the negative pass produces. *)
Theorem C1_true_cfg_gate (entropy : Z) (r : Request) (g : FluxGenerator) :
  let run := generate_image entropy r g in
  let a := request_denoise_args entropy r g in
  denoise_calls (trace_of run) = [a] /\
  d_true_cfg a = true_cfg r /\
  d_timestep_to_start_cfg a = timestep_to_start_cfg r /\
  if PrimFloat.ltb py_1e_2 (PrimFloat.abs (PrimFloat.sub (true_cfg r) 1.0%float))
  then
    prepared_prompts (trace_of run) = [prompt r; neg_prompt r] /\
    negative_bundle entropy r g =
      prepare (max_sequence_length r) (initial_noise entropy r g) (neg_prompt r) /\
    d_neg_txt a = Some (inp_txt (negative_bundle entropy r g)) /\
    d_neg_txt_ids a = Some (inp_txt_ids (negative_bundle entropy r g)) /\
    d_neg_vec a = Some (inp_vec (negative_bundle entropy r g))
  else
    prepared_prompts (trace_of run) = [prompt r] /\
    d_neg_txt a = None /\ d_neg_txt_ids a = None /\ d_neg_vec a = None /\
    resp_image (result_of run) = image_of_latent r (denoise_positive_only a).
Proof.
  intros run a. subst run.
  rewrite generate_image_trace, generate_image_result.
  fold (use_true_cfg_of (true_cfg r)).
  assert (Hcalls : denoise_calls (request_trace entropy r g) = [a]).
  { unfold request_trace.
    destruct (seed r =? -1), (id_image r), (use_true_cfg_of (true_cfg r)),
      (offload g); reflexivity. }
  split; [exact Hcalls|]. split; [reflexivity|]. split; [reflexivity|].
  destruct (use_true_cfg_of (true_cfg r)) eqn:Ecfg.
  - split.
    { unfold request_trace. rewrite Ecfg.
      destruct (seed r =? -1), (id_image r), (offload g); reflexivity. }
    split; [reflexivity|].
    subst a. unfold request_denoise_args, denoise_args. rewrite Ecfg. cbn.
    repeat split; reflexivity.
  - split.
    { unfold request_trace. rewrite Ecfg.
      destruct (seed r =? -1), (id_image r), (offload g); reflexivity. }
    assert (Hgate : use_true_cfg_of (d_true_cfg a) = false) by exact Ecfg.
    cbn [resp_image].
    unfold denoise, denoise_positive_only.
    rewrite (denoise_from_positive_only a Hgate).
    subst a. unfold request_denoise_args, denoise_args. rewrite Ecfg. cbn.
    repeat split; reflexivity.
Qed.

(** ** The seed *)

(** C2.  A request whose seed is [-1] draws a seed during the request, right
    after line 57 and before anything else: an integer from 0 to 2^64 - 1;
    any other request keeps the seed it was given and draws nothing.  In
    both cases that resolved seed is the one [get_noise] receives, and the
    text returned to the caller is its decimal writing. *)
Theorem C2_seed_resolution (entropy : Z) (r : Request) (g : FluxGenerator) :
  let run := generate_image entropy r g in
  let resolved := resolved_seed entropy r in
  (if seed r =? -1
   then resolved = uint64_wrap entropy /\ 0 <= resolved < 2 ^ 64 /\
        exists rest,
          trace_of run =
            EvSetMaxLength (max_sequence_length r) :: EvTorchSeed resolved :: rest /\
          drawn_seeds rest = []
   else resolved = seed r /\ drawn_seeds (trace_of run) = []) /\
  noise_seeds (trace_of run) = [resolved] /\
  resp_seed (result_of run) = py_str resolved /\
  py_parse_int (resp_seed (result_of run)) = Some resolved.
Proof.
  intros run resolved. subst run resolved.
  rewrite generate_image_trace, generate_image_result. cbn [resp_seed].
  split; [|split; [|split; [reflexivity | apply py_str_roundtrip]]].
  - unfold resolved_seed, request_trace.
    destruct (seed r =? -1) eqn:Eseed.
    + split; [reflexivity|]. split; [apply uint64_wrap_range|].
      eexists. split; [reflexivity|].
      destruct (id_image r), (use_true_cfg_of (true_cfg r)), (offload g);
        reflexivity.
    + split; [reflexivity|].
      destruct (id_image r), (use_true_cfg_of (true_cfg r)), (offload g);
        reflexivity.
  - unfold request_trace.
    destruct (seed r =? -1), (id_image r), (use_true_cfg_of (true_cfg r)),
      (offload g); reflexivity.
Qed.

(** ** The identity embeddings *)

(** C3.  [denoise] receives a conditional identity embedding exactly when
    the request carries a reference image; it receives an unconditional one
    only if the request carries an image and true CFG is on, which is also
    the value of [cal_uncond] in every call of the extractor; without an
    image both are [None] and the extractor is not called. *)
Theorem C3_identity_embeddings_presence (entropy : Z) (r : Request)
  (g : FluxGenerator) :
  let run := generate_image entropy r g in
  exists a,
    denoise_calls (trace_of run) = [a] /\
    (d_id a <> None <-> id_image r <> None) /\
    (d_uncond_id a <> None ->
     id_image r <> None /\ use_true_cfg_of (true_cfg r) = true) /\
    (id_image r = None ->
     d_id a = None /\ d_uncond_id a = None /\
     extractor_calls (trace_of run) = []) /\
    (forall image cal,
       In (image, cal) (extractor_calls (trace_of run)) ->
       cal = use_true_cfg_of (true_cfg r)).
Proof.
  intros run. subst run. exists (request_denoise_args entropy r g).
  rewrite generate_image_trace.
  split.
  { unfold request_trace.
    destruct (seed r =? -1), (id_image r), (use_true_cfg_of (true_cfg r)),
      (offload g); reflexivity. }
  unfold request_denoise_args, denoise_args, request_id_embeddings, request_trace,
    get_id_embedding.
  cbn [d_id d_uncond_id].
  destruct (id_image r) as [image|]; cbn [fst snd].
  - split; [split; intros _; discriminate|].
    split.
    { destruct (use_true_cfg_of (true_cfg r)); intros H;
        [split; [discriminate | reflexivity] | now elim H]. }
    split; [discriminate|].
    intros image' cal Hin.
    destruct (seed r =? -1), (use_true_cfg_of (true_cfg r)), (offload g);
      cbn in Hin; destruct Hin as [E|[]]; now inversion E.
  - split; [split; intros H; now elim H|].
    split; [intros H; now elim H|].
    split.
    { intros _. repeat split.
      destruct (seed r =? -1), (use_true_cfg_of (true_cfg r)), (offload g);
        reflexivity. }
    intros image' cal Hin.
    destruct (seed r =? -1), (use_true_cfg_of (true_cfg r)), (offload g);
      cbn in Hin; destruct Hin.
Qed.

(** ** Requests without a reference image *)

(** C4, amended.  Take two calls of [generate_image] in one process (the
    generator has the same device in both) whose requests agree on every
    argument but [start_step] and [id_weight], carry no reference image, and
    run with the same resolved seed: the seed given, or equal draws when the
    seed is [-1].  They return the same image. *)
Theorem C4_no_image_ignores_id_controls (entropy1 entropy2 : Z) (r1 r2 : Request)
  (g1 g2 : FluxGenerator) :
  same_but_id_controls r1 r2 ->
  id_image r1 = None ->
  device g1 = device g2 ->
  resolved_seed entropy1 r1 = resolved_seed entropy2 r2 ->
  resp_image (result_of (generate_image entropy1 r1 g1)) =
  resp_image (result_of (generate_image entropy2 r2 g2)).
Proof.
  intros (Hw & Hh & Hn & Hgd & _ & Hp & Him & Hneg & Hcfg & Hstart & Hml)
    Hnone Hdev Hseed.
  rewrite !generate_image_result. cbn [resp_image].
  unfold image_of_latent. rewrite Hw, Hh. do 4 f_equal.
  assert (Hnone2 : id_image r2 = None) by now rewrite <- Him.
  assert (Hnoise : initial_noise entropy1 r1 g1 = initial_noise entropy2 r2 g2).
  { unfold initial_noise. now rewrite Hw, Hh, Hdev, Hseed. }
  unfold denoise, request_denoise_args, negative_bundle, request_id_embeddings.
  rewrite Hnone, Hnone2, Hnoise, Hp, Hneg, Hcfg, Hml, Hn.
  cbn [fst snd denoise_args d_img d_timesteps o_guidance].
  apply denoise_from_ext. intros i img t.
  unfold step_prediction, positive_prediction, negative_prediction, denoise_args.
  cbn [d_img_ids d_txt d_txt_ids d_vec d_guidance d_id d_uncond_id d_true_cfg
       d_timestep_to_start_cfg d_neg_txt d_neg_txt_ids d_neg_vec].
  cbn [o_guidance].
  rewrite !identity_conditioning_absent, ?Hgd, ?Hcfg, ?Hstart.
  reflexivity.
Qed.

(** ** The schedule *)

(** What the code decides about the schedule: one call of [get_schedule],
    with the request's number of steps, a quarter of the product of the last
    two dimensions of the initial noise, and [shift=True]; its result is the
    list [denoise] walks.  The values themselves are [get_schedule]'s. *)
Lemma generate_image_schedule_call (entropy : Z) (r : Request) (g : FluxGenerator) :
  let x := initial_noise entropy r g in
  schedule_calls (trace_of (generate_image entropy r g)) =
    [(num_steps r, shape_last x * shape_last_but_one x / 4, true)] /\
  d_timesteps (request_denoise_args entropy r g) =
    get_schedule (num_steps r) (shape_last x * shape_last_but_one x / 4) true.
Proof.
  intros x. subst x. rewrite generate_image_trace. unfold request_trace.
  split; [|reflexivity].
  destruct (seed r =? -1), (id_image r), (use_true_cfg_of (true_cfg r)),
    (offload g); reflexivity.
Qed.

(** ** From the decoded tensor to the image *)


(** ** The offload policy *)

(** The final latent of a request is on the generator's device. *)
Lemma denoised_latent_device (entropy : Z) (r : Request) (g : FluxGenerator) :
  latent_stays_on_device ->
  tensor_device (denoise (request_denoise_args entropy r g)) = device g.
Proof.
  intros (Hnoise & Hprepare & Heuler).
  unfold denoise. rewrite (denoise_from_device _ Heuler).
  unfold request_denoise_args, denoise_args. cbn [d_img].
  rewrite Hprepare. apply Hnoise.
Qed.

(** C7, amended.  With the offload flag set, the relocations and the stages
    that read a handle happen in this order, each stage finding its handle
    on the generator's device: both text encoders are moved to the device,
    then [prepare] runs (twice under true CFG); the text encoders are moved
    to the CPU and the denoiser to the device, then [denoise] runs; the
    denoiser is moved to the CPU and the decoder to the device, then the
    decoder runs; and at a fourth point, after decoding, the decoder is
    moved back to the CPU. *)
Theorem C7_offload_relocations_in_order (entropy : Z) (r : Request)
  (g : FluxGenerator) :
  offload g = true ->
  latent_stays_on_device ->
  let run := generate_image entropy r g in
  let dev := device g in
  relocations_and_stages (trace_of run) =
    [EvMove H_t5 dev; EvMove H_clip dev; EvPrepare dev dev (prompt r)]
    ++ (if use_true_cfg_of (true_cfg r)
        then [EvPrepare dev dev (neg_prompt r)] else [])
    ++ [EvMove H_t5 CPU; EvMove H_clip CPU; EvEmptyCache; EvMove H_model dev;
        EvDenoise dev (request_denoise_args entropy r g);
        EvMove H_model CPU; EvEmptyCache; EvMove H_ae_decoder dev;
        EvDecode dev;
        EvMove H_ae_decoder CPU; EvEmptyCache].
Proof.
  intros Hoff Hdevice run dev. subst run dev.
  rewrite generate_image_trace. unfold request_trace. rewrite Hoff.
  rewrite (denoised_latent_device entropy r g Hdevice).
  destruct (seed r =? -1), (id_image r), (use_true_cfg_of (true_cfg r));
    reflexivity.
Qed.

(** ** The reference image *)

(** C9.  A request with a reference image calls the resize helper once, on
    the image given and with long edge 1024, and then the extractor once, on
    the image the helper returned; the embeddings that [denoise] receives
    are the ones computed from that resized image, whose long edge is at most
    1024 when the helper keeps its bound. *)
Theorem C9_reference_image_resized_first (entropy : Z) (r : Request)
  (g : FluxGenerator) (raw : NumpyImage) :
  id_image r = Some raw ->
  resize_bounds_long_edge ->
  let run := generate_image entropy r g in
  let resized := resize_numpy_image_long raw 1024 in
  let cal_uncond := use_true_cfg_of (true_cfg r) in
  resize_calls (trace_of run) = [(raw, 1024)] /\
  extractor_calls (trace_of run) = [(resized, cal_uncond)] /\
  (exists before after,
     trace_of run =
       before ++ EvResize raw 1024 :: EvGetIdEmbedding resized cal_uncond :: after) /\
  long_edge resized <= 1024 /\
  exists a,
    denoise_calls (trace_of run) = [a] /\
    d_id a = Some (pulid_id_embedding resized) /\
    d_uncond_id a =
      if cal_uncond then Some (pulid_uncond_id_embedding resized) else None.
Proof.
  intros Himage Hbound run resized cal_uncond. subst run resized cal_uncond.
  rewrite generate_image_trace. unfold request_trace. rewrite Himage.
  split.
  { destruct (seed r =? -1), (use_true_cfg_of (true_cfg r)), (offload g);
      reflexivity. }
  split.
  { destruct (seed r =? -1), (use_true_cfg_of (true_cfg r)), (offload g);
      reflexivity. }
  split.
  { exists ([EvSetMaxLength (max_sequence_length r)]
            ++ (if seed r =? -1 then [EvTorchSeed (uint64_wrap entropy)] else [])).
    eexists. rewrite <- app_assoc. reflexivity. }
  split; [apply Hbound; reflexivity|].
  exists (request_denoise_args entropy r g).
  split.
  { destruct (seed r =? -1), (use_true_cfg_of (true_cfg r)), (offload g);
      reflexivity. }
  unfold request_denoise_args, denoise_args, request_id_embeddings.
  rewrite Himage. cbn. split; reflexivity.
Qed.

(** ** Sessions *)

Lemma serve_cons_state (h : Z -> Request -> M Response) (entropy : Z) (r : Request)
  (rest : list (Z * Request)) (g : FluxGenerator) :
  state_of (serve h ((entropy, r) :: rest) g) =
  state_of (serve h rest (state_of (h entropy r g))).
Proof.
  cbn [serve]. unfold bind, ret, state_of.
  destruct (h entropy r g) as [[resp g1] tr1]. cbn [fst snd].
  destruct (serve h rest g1) as [[resps g2] tr2]. reflexivity.
Qed.

Lemma serve_cons_trace (h : Z -> Request -> M Response) (entropy : Z) (r : Request)
  (rest : list (Z * Request)) (g : FluxGenerator) :
  trace_of (serve h ((entropy, r) :: rest) g) =
  trace_of (h entropy r g) ++ trace_of (serve h rest (state_of (h entropy r g))).
Proof.
  cbn [serve]. unfold bind, ret, state_of, trace_of.
  destruct (h entropy r g) as [[resp g1] tr1]. cbn [fst snd].
  destruct (serve h rest g1) as [[resps g2] tr2]. cbn [fst snd].
  now rewrite app_nil_r.
Qed.

Lemma same_generator_fields_trans (g1 g2 g3 : FluxGenerator) :
  same_generator_fields g1 g2 ->
  same_generator_fields g2 g3 ->
  same_generator_fields g1 g3.
Proof.
  unfold same_generator_fields.
  intros (A1 & A2 & A3) (E1 & E2 & E3).
  repeat split; congruence.
Qed.

(** A request loads nothing. *)
Lemma generate_image_loads (entropy : Z) (r : Request) (g : FluxGenerator) :
  loads (trace_of (generate_image entropy r g)) = [].
Proof.
  rewrite generate_image_trace. unfold request_trace.
  destruct (seed r =? -1), (id_image r), (use_true_cfg_of (true_cfg r)),
    (offload g); reflexivity.
Qed.

(** The writes of a request to the handles when nothing is offloaded: the
    token budget, and the extraction when there is a reference image. *)
Lemma generate_image_handle_writes (entropy : Z) (r : Request) (g : FluxGenerator) :
  offload g = false ->
  handle_writes (trace_of (generate_image entropy r g)) = request_handle_writes r.
Proof.
  intros Hoff. rewrite generate_image_trace.
  unfold request_trace, request_handle_writes. rewrite Hoff.
  destruct (seed r =? -1), (id_image r), (use_true_cfg_of (true_cfg r));
    reflexivity.
Qed.

(** A request without a reference image leaves the identity pipeline as it
    was. *)
Lemma generate_image_pulid_model (entropy : Z) (r : Request) (g : FluxGenerator) :
  id_image r = None ->
  pulid_model (state_of (generate_image entropy r g)) = pulid_model g.
Proof.
  intros Hnone. unfold state_of.
  run_request r g; try discriminate Hnone; reflexivity.
Qed.

Lemma generate_image_no_relocation (entropy : Z) (r : Request) (g : FluxGenerator) :
  offload g = false ->
  filter is_relocation (trace_of (generate_image entropy r g)) = [].
Proof.
  intros Hoff. rewrite generate_image_trace. unfold request_trace. rewrite Hoff.
  destruct (seed r =? -1), (id_image r), (use_true_cfg_of (true_cfg r));
    reflexivity.
Qed.

Lemma loads_app (tr1 tr2 : list Event) : loads (tr1 ++ tr2) = loads tr1 ++ loads tr2.
Proof. unfold loads. apply flat_map_app. Qed.

Lemma handle_writes_app (tr1 tr2 : list Event) :
  handle_writes (tr1 ++ tr2) = handle_writes tr1 ++ handle_writes tr2.
Proof. unfold handle_writes. apply filter_app. Qed.

Lemma last_cons_default {X : Type} (l : list X) :
  forall x d : X, last (x :: l) d = last l x.
Proof.
  induction l as [|y l IH]; intros x d; [reflexivity|].
  change (last (y :: l) d = last (y :: l) x). now rewrite !IH.
Qed.

(** Serving any list of requests from any generator. *)
Lemma serve_frame (reqs : list (Z * Request)) :
  forall g : FluxGenerator,
    let run := serve generate_image reqs g in
    loads (trace_of run) = [] /\
    same_generator_fields g (state_of run) /\
    max_length (t5 (state_of run)) =
      last (map (fun er => max_sequence_length (snd er)) reqs) (max_length (t5 g)).
Proof.
  induction reqs as [|[entropy r] rest IH]; intros g run; subst run.
  - cbn. repeat split; reflexivity.
  - rewrite serve_cons_state, serve_cons_trace, loads_app, generate_image_loads.
    destruct (generate_image_frame entropy r g) as [Hframe Hlen].
    destruct (IH (state_of (generate_image entropy r g))) as (Hl & Hf & Hm).
    split; [exact Hl|]. split.
    + eapply same_generator_fields_trans; eassumption.
    + rewrite Hm, Hlen. cbn [map snd]. now rewrite last_cons_default.
Qed.

(** Serving without offload. *)
Lemma serve_no_offload (reqs : list (Z * Request)) :
  forall g : FluxGenerator,
    offload g = false ->
    let run := serve generate_image reqs g in
    offload (state_of run) = false /\
    filter is_relocation (trace_of run) = [] /\
    handle_writes (trace_of run) =
      flat_map (fun er => request_handle_writes (snd er)) reqs /\
    model (state_of run) = model g /\ ae (state_of run) = ae g /\
    clip (state_of run) = clip g /\
    t5_device (t5 (state_of run)) = t5_device (t5 g).
Proof.
  induction reqs as [|[entropy r] rest IH]; intros g Hoff run; subst run.
  - cbn. repeat split; assumption || reflexivity.
  - rewrite serve_cons_state, serve_cons_trace, filter_app, handle_writes_app.
    rewrite (generate_image_handle_writes entropy r g Hoff).
    rewrite (generate_image_no_relocation entropy r g Hoff).
    destruct (generate_image_frame entropy r g) as [(_ & Hoff1 & _) _].
    destruct (generate_image_no_offload entropy r g Hoff) as (Hm & Ha & Hc & Ht).
    rewrite Hoff in Hoff1. symmetry in Hoff1.
    destruct (IH (state_of (generate_image entropy r g)) Hoff1)
      as (I1 & I2 & I3 & I4 & I5 & I6 & I7).
    rewrite I3. cbn [List.app flat_map snd].
    repeat split; congruence.
Qed.

Lemma main_trace (args : Args) (reqs : list (Z * Request)) :
  trace_of (main args reqs) =
  snd FluxGenerator_init
  ++ trace_of (serve generate_image reqs (fst FluxGenerator_init)).
Proof.
  unfold main, create_demo, trace_of. cbn [FluxGenerator_init get_models fst snd].
  destruct (serve generate_image reqs _) as [[resps g1] tr1]. reflexivity.
Qed.

Lemma main_state (args : Args) (reqs : list (Z * Request)) :
  state_of (main args reqs) =
  state_of (serve generate_image reqs (fst FluxGenerator_init)).
Proof.
  unfold main, create_demo, state_of. cbn [FluxGenerator_init get_models fst snd].
  destruct (serve generate_image reqs _) as [[resps g1] tr1]. reflexivity.
Qed.

(** Serving requests none of which has a reference image leaves the
    identity pipeline as it was. *)
Lemma serve_pulid_model (reqs : list (Z * Request)) :
  forall g : FluxGenerator,
    (forall er, In er reqs -> id_image (snd er) = None) ->
    pulid_model (state_of (serve generate_image reqs g)) = pulid_model g.
Proof.
  induction reqs as [|[entropy r] rest IH]; intros g Hnone; [reflexivity|].
  rewrite serve_cons_state, IH.
  - apply generate_image_pulid_model. apply (Hnone (entropy, r)). now left.
  - intros er Hin. apply Hnone. now right.
Qed.

(** C8, amended.  At start-up each handle is loaded once, and these are the
    only loads of a session.  Serving any list of requests, from any
    generator and with the offload flag either way, loads nothing and leaves
    the generator's device, offload flag and model name as they were.  What
    it writes in the handles, besides where they are, is the T5 encoder's
    [max_length], which holds the [max_sequence_length] of the last request,
    and the debug images of the identity pipeline, which only a request with
    a reference image rewrites.  Without offload the writes to the handles
    are, per request, one assignment of [max_length] and, with a reference
    image, one extraction; no handle moves. *)
Theorem C8_handles_loaded_once_and_frame (args : Args) (reqs : list (Z * Request))
  (g : FluxGenerator) :
  let startup := [(H_t5, CUDA); (H_clip, CUDA); (H_model, CUDA); (H_ae, CUDA);
                  (H_pulid, CUDA)] in
  let run := serve generate_image reqs g in
  loads (snd FluxGenerator_init) = startup /\
  loads (trace_of (main args reqs)) = startup /\
  loads (trace_of run) = [] /\
  same_generator_fields g (state_of run) /\
  max_length (t5 (state_of run)) =
    last (map (fun er => max_sequence_length (snd er)) reqs) (max_length (t5 g)) /\
  ((forall er, In er reqs -> id_image (snd er) = None) ->
   pulid_model (state_of run) = pulid_model g) /\
  (offload g = false ->
   handle_writes (trace_of run) =
     flat_map (fun er => request_handle_writes (snd er)) reqs /\
   model (state_of run) = model g /\ ae (state_of run) = ae g /\
   clip (state_of run) = clip g /\
   t5_device (t5 (state_of run)) = t5_device (t5 g)).
Proof.
  intros startup run. subst startup run.
  destruct (serve_frame reqs g) as (Hl & Hf & Hm).
  split; [reflexivity|].
  split.
  { rewrite main_trace, loads_app.
    destruct (serve_frame reqs (fst FluxGenerator_init)) as (Hl0 & _).
    rewrite Hl0. reflexivity. }
  split; [exact Hl|]. split; [exact Hf|]. split; [exact Hm|].
  split; [apply serve_pulid_model|].
  intros Hoff. now destruct (serve_no_offload reqs g Hoff) as (_ & _ & H).
Qed.

(** C10.  [FluxGenerator.__init__] sets the offload flag to [False], and
    whatever the command line says (the [--offload] flag included) the
    process serves every list of requests without ever setting it: the flag
    is [False] at the end, no relocation of the offload policy is in the
    trace, and every handle is on the device it was loaded on. *)
Theorem C10_offload_is_always_false (args : Args) (reqs : list (Z * Request)) :
  let g0 := fst FluxGenerator_init in
  let run := main args reqs in
  offload g0 = false /\
  offload (state_of run) = false /\
  filter is_relocation (trace_of run) = [] /\
  model (state_of run) = {| model_device := CUDA |} /\
  ae (state_of run) = {| encoder_device := CUDA; decoder_device := CUDA |} /\
  clip (state_of run) = {| clip_device := CUDA |} /\
  t5_device (t5 (state_of run)) = CUDA.
Proof.
  intros g0 run. subst g0 run.
  rewrite main_trace, main_state, filter_app.
  destruct (serve_no_offload reqs (fst FluxGenerator_init) eq_refl)
    as (I1 & I2 & _ & I4 & I5 & I6 & I7).
  rewrite I2, I4, I5, I6, I7.
  repeat split; assumption || reflexivity.
Qed.


(** * Further properties of [generate_image] and of a session *)

(** ** The generator after a request *)

Lemma generate_image_state (entropy : Z) (r : Request) (g : FluxGenerator) :
  state_of (generate_image entropy r g) = state_after_request r g.
Proof.
  unfold state_after_request, request_debug_imgs, state_of.
  run_request r g;
    match goal with pm : PuLIDPipeline |- _ => destruct pm end; reflexivity.
Qed.

(** X4.  After a request under offload the two text encoders, the denoiser
    and the decoder are all on the CPU, wherever they were before, and the
    encoder half of the autoencoder is where it was. *)
Theorem X4_offloaded_request_leaves_handles_on_cpu (entropy : Z) (r : Request)
  (g : FluxGenerator) :
  offload g = true ->
  let g' := state_of (generate_image entropy r g) in
  t5_device (t5 g') = CPU /\ clip_device (clip g') = CPU /\
  model_device (model g') = CPU /\ decoder_device (ae g') = CPU /\
  encoder_device (ae g') = encoder_device (ae g).
Proof.
  intros Hoff g'. subst g'. rewrite generate_image_state.
  unfold state_after_request. rewrite Hoff. cbn. repeat split; reflexivity.
Qed.

(** A request overwrites what the one before it left in the generator,
    the identity pipeline apart. *)
Lemma state_after_request_absorbs (r1 r2 : Request) (g : FluxGenerator) :
  same_but_identity_pipeline
    (state_after_request r2 (state_after_request r1 g)) (state_after_request r2 g).
Proof.
  unfold same_but_identity_pipeline, state_after_request.
  cbn [device offload model_name model ae t5 clip pulid_model].
  destruct (offload g); repeat split; reflexivity.
Qed.

(** After a request without a reference image the identity pipeline is as it
    was too. *)
Lemma state_after_request_absorbs_no_image (r1 r2 : Request) (g : FluxGenerator) :
  id_image r1 = None ->
  state_after_request r2 (state_after_request r1 g) = state_after_request r2 g.
Proof.
  intros Hnone. unfold state_after_request, request_debug_imgs.
  cbn [device offload model_name model ae t5 clip pulid_model debug_img_list].
  rewrite Hnone. destruct (offload g); reflexivity.
Qed.

(** X5.  At the end of a session that served at least one request, every
    field of the generator other than the identity pipeline is what the last
    request alone would have left: what earlier requests wrote (the token
    budget, the placements under offload) is overwritten.  When no earlier
    request had a reference image the whole generator is what the last
    request alone would have left. *)
Theorem X5_generator_state_is_that_of_last_request (reqs : list (Z * Request))
  (entropy : Z) (r : Request) (g : FluxGenerator) :
  same_but_identity_pipeline
    (state_of (serve generate_image (reqs ++ [(entropy, r)]) g))
    (state_of (generate_image entropy r g)) /\
  ((forall er, In er reqs -> id_image (snd er) = None) ->
   state_of (serve generate_image (reqs ++ [(entropy, r)]) g) =
   state_of (generate_image entropy r g)).
Proof.
  revert g.
  induction reqs as [|[entropy1 r1] rest IH]; intros g.
  - cbn [List.app]. rewrite serve_cons_state. cbn [serve]. unfold ret, state_of at 1 3.
    cbn [fst snd]. split; [|reflexivity].
    unfold same_but_identity_pipeline. repeat split; reflexivity.
  - cbn [List.app]. rewrite serve_cons_state.
    destruct (IH (state_of (generate_image entropy1 r1 g))) as [IHsame IHeq].
    split.
    + pose proof (state_after_request_absorbs r1 r g) as Habs.
      rewrite !generate_image_state in *.
      unfold same_but_identity_pipeline in *.
      destruct IHsame as (A1 & A2 & A3 & A4 & A5 & A6 & A7).
      destruct Habs as (E1 & E2 & E3 & E4 & E5 & E6 & E7).
      repeat split; congruence.
    + intros Hnone. rewrite IHeq by (intros er Hin; apply Hnone; now right).
      rewrite !generate_image_state.
      apply state_after_request_absorbs_no_image.
      apply (Hnone (entropy1, r1)). now left.
Qed.

(** ** What a request does not read *)

(** X3.  The token budget that an earlier request left in the T5 encoder is
    never read: line 57 overwrites it before [prepare] runs, so the response,
    the generator left behind and every call made are the same whatever that
    budget was. *)
Theorem X3_earlier_max_length_never_read (entropy n : Z) (r : Request)
  (g : FluxGenerator) :
  generate_image entropy r (with_max_length g n) = generate_image entropy r g.
Proof.
  unfold with_max_length.
  run_request r g; reflexivity.
Qed.

(** X2.  Without true CFG the negative prompt is dead: a request that
    differs in the negative prompt only gives the same response, leaves the
    same generator and makes the same calls. *)
Theorem X2_negative_prompt_ignored_without_true_cfg (entropy : Z) (r : Request)
  (p : string) (g : FluxGenerator) :
  use_true_cfg_of (true_cfg r) = false ->
  generate_image entropy (with_neg_prompt r p) g = generate_image entropy r g.
Proof.
  intros Hgate.
  destruct g as [dev off name m a t c pm].
  unfold with_neg_prompt.
  destruct (seed r =? -1) eqn:Eseed; destruct (id_image r) eqn:Eimage;
    destruct off; run_pipeline; rewrite ?Eseed, ?Eimage, ?Hgate;
    cbn -[uint64_wrap denoise to_byte_image Z.eqb get_id_embedding denoise_args
          use_true_cfg_of];
    rewrite ?Eseed, ?Eimage, ?Hgate;
    unfold denoise_args; cbn [option_map]; reflexivity.
Qed.

(** ** Replaying the echoed seed *)

Lemma resolved_seed_not_sentinel (entropy : Z) (r : Request) :
  resolved_seed entropy r <> -1.
Proof.
  unfold resolved_seed. destruct (seed r =? -1) eqn:E.
  - pose proof (uint64_wrap_range entropy). lia.
  - now apply Z.eqb_neq.
Qed.

(** X1.  The text echoed as "Used Seed" is never the sentinel [-1], and it
    replays the request: a second call in the same process (same device)
    with that number as seed and every other argument as before draws
    nothing, runs on the same noise, and returns the same image and the
    same echoed seed, whatever entropy is at hand. *)
Theorem X1_echoed_seed_replays_the_request (entropy1 entropy2 : Z) (r : Request)
  (g1 g2 : FluxGenerator) :
  device g1 = device g2 ->
  let first := generate_image entropy1 r g1 in
  exists s,
    py_parse_int (resp_seed (result_of first)) = Some s /\
    s <> -1 /\
    let second := generate_image entropy2 (with_seed r s) g2 in
    drawn_seeds (trace_of second) = [] /\
    noise_seeds (trace_of second) = noise_seeds (trace_of first) /\
    resp_image (result_of second) = resp_image (result_of first) /\
    resp_seed (result_of second) = resp_seed (result_of first).
Proof.
  intros Hdev first. subst first.
  exists (resolved_seed entropy1 r).
  pose proof (resolved_seed_not_sentinel entropy1 r) as Hs.
  assert (Hres : resolved_seed entropy2 (with_seed r (resolved_seed entropy1 r)) =
                 resolved_seed entropy1 r).
  { unfold resolved_seed at 1. cbn [with_seed seed].
    apply Z.eqb_neq in Hs. now rewrite Hs. }
  cbn zeta.
  rewrite !generate_image_result, !generate_image_trace. cbn [resp_seed resp_image].
  split; [apply py_str_roundtrip|]. split; [exact Hs|].
  assert (Hargs : request_denoise_args entropy2
                    (with_seed r (resolved_seed entropy1 r)) g2 =
                  request_denoise_args entropy1 r g1).
  { unfold request_denoise_args, negative_bundle, initial_noise,
      request_id_embeddings, denoise_args.
    rewrite Hres, Hdev. reflexivity. }
  rewrite Hargs, Hres.
  split.
  { unfold request_trace. cbn [with_seed seed id_image true_cfg].
    apply Z.eqb_neq in Hs. rewrite Hs.
    destruct (id_image r), (use_true_cfg_of (true_cfg r)), (offload g2);
      reflexivity. }
  split; [|split; reflexivity].
  unfold request_trace. rewrite Hres. cbn [with_seed seed id_image true_cfg].
  destruct (resolved_seed entropy1 r =? -1), (seed r =? -1), (id_image r),
    (use_true_cfg_of (true_cfg r)), (offload g1), (offload g2); reflexivity.
Qed.

(** ** Seeds across a session *)

Lemma serve_cons_result (h : Z -> Request -> M Response) (entropy : Z) (r : Request)
  (rest : list (Z * Request)) (g : FluxGenerator) :
  result_of (serve h ((entropy, r) :: rest) g) =
  result_of (h entropy r g) :: result_of (serve h rest (state_of (h entropy r g))).
Proof.
  cbn [serve]. unfold bind, ret, state_of, result_of.
  destruct (h entropy r g) as [[resp g1] tr1]. cbn [fst snd].
  destruct (serve h rest g1) as [[resps g2] tr2]. reflexivity.
Qed.

Lemma generate_image_drawn_seeds (entropy : Z) (r : Request) (g : FluxGenerator) :
  drawn_seeds (trace_of (generate_image entropy r g)) =
  if seed r =? -1 then [uint64_wrap entropy] else [].
Proof.
  rewrite generate_image_trace. unfold request_trace.
  destruct (seed r =? -1), (id_image r), (use_true_cfg_of (true_cfg r)),
    (offload g); reflexivity.
Qed.

Lemma generate_image_noise_seeds (entropy : Z) (r : Request) (g : FluxGenerator) :
  noise_seeds (trace_of (generate_image entropy r g)) = [resolved_seed entropy r].
Proof.
  rewrite generate_image_trace. unfold request_trace.
  destruct (seed r =? -1), (id_image r), (use_true_cfg_of (true_cfg r)),
    (offload g); reflexivity.
Qed.

(** X6.  A session answers every request, in order, each with its own seed:
    the echoed seeds are the decimal writings of the resolved seeds of the
    requests, the noise generator is called once per request with those
    seeds, and entropy is drawn for the requests whose seed is [-1] and for
    no other. *)
Theorem X6_session_seeds_in_order (reqs : list (Z * Request)) (g : FluxGenerator) :
  let run := serve generate_image reqs g in
  map resp_seed (result_of run) =
    map (fun er => py_str (resolved_seed (fst er) (snd er))) reqs /\
  noise_seeds (trace_of run) =
    map (fun er => resolved_seed (fst er) (snd er)) reqs /\
  drawn_seeds (trace_of run) =
    flat_map (fun er => if seed (snd er) =? -1 then [uint64_wrap (fst er)] else [])
      reqs.
Proof.
  revert g.
  induction reqs as [|[entropy r] rest IH]; intros g run; subst run.
  - repeat split; reflexivity.
  - destruct (IH (state_of (generate_image entropy r g))) as (I1 & I2 & I3).
    rewrite serve_cons_result, serve_cons_trace.
    unfold noise_seeds, drawn_seeds in *. rewrite !flat_map_app.
    fold (noise_seeds (trace_of (generate_image entropy r g))).
    fold (drawn_seeds (trace_of (generate_image entropy r g))).
    rewrite generate_image_noise_seeds, generate_image_drawn_seeds, I2, I3.
    cbn [map flat_map fst snd]. rewrite I1, generate_image_result.
    repeat split; reflexivity.
Qed.

(** ** Where the stages run in the application *)

Lemma generate_image_on_cuda (entropy : Z) (r : Request) (g : FluxGenerator) :
  offload g = false -> device g = CUDA ->
  t5_device (t5 g) = CUDA -> clip_device (clip g) = CUDA ->
  model_device (model g) = CUDA -> decoder_device (ae g) = CUDA ->
  Forall on_cuda (trace_of (generate_image entropy r g)).
Proof.
  intros Hoff Hdev Ht5 Hclip Hmodel Hdec.
  rewrite generate_image_trace. unfold request_trace.
  rewrite Hoff, Hdev, Ht5, Hclip, Hmodel, Hdec.
  destruct (seed r =? -1), (id_image r), (use_true_cfg_of (true_cfg r));
    repeat constructor.
Qed.

Lemma serve_on_cuda (reqs : list (Z * Request)) :
  forall g : FluxGenerator,
    offload g = false -> device g = CUDA ->
    t5_device (t5 g) = CUDA -> clip_device (clip g) = CUDA ->
    model_device (model g) = CUDA -> decoder_device (ae g) = CUDA ->
    Forall on_cuda (trace_of (serve generate_image reqs g)).
Proof.
  induction reqs as [|[entropy r] rest IH]; intros g Hoff Hdev Ht5 Hclip Hmodel Hdec.
  - constructor.
  - rewrite serve_cons_trace. apply Forall_app. split.
    + now apply generate_image_on_cuda.
    + rewrite generate_image_state. unfold state_after_request.
      apply IH; cbn [offload device t5 clip model ae t5_device]; rewrite ?Hoff;
        assumption || reflexivity.
Qed.

(** X7.  In the application, whatever the command line and the requests,
    the noise is created on CUDA and every stage that reads a handle finds it
    on CUDA: both text encoders at each [prepare], the denoiser at each
    [denoise], the decoder at each [decode]. *)
Theorem X7_application_runs_every_stage_on_cuda (args : Args)
  (reqs : list (Z * Request)) :
  Forall on_cuda (trace_of (main args reqs)).
Proof.
  rewrite main_trace. apply Forall_app. split.
  - repeat constructor.
  - apply serve_on_cuda; reflexivity.
Qed.

(** ** One entry of the image *)

Lemma clamp_monotone (v1 v2 : Q) :
  (v1 <= v2)%Q -> (clamp (-1) 1 v1 <= clamp (-1) 1 v2)%Q.
Proof.
  intros H. unfold clamp.
  apply Q.min_le_compat_r, Q.max_le_compat_r, H.
Qed.

Lemma pixel_byte_is_floor (v : Q) :
  pixel_byte v = Qfloor (rescale (clamp (-1) 1 v)).
Proof.
  unfold pixel_byte.
  now destruct (to_byte_in_range _ (rescale_range _ (clamp_range v))).
Qed.

(** On an entry that is a number the pipeline applies [pixel_byte]. *)
Lemma entry_byte_is_pixel_byte (q : Q) : entry_byte (Num q) = pixel_byte q.
Proof. reflexivity. Qed.

(** X8.  The map of lines 144 to 148 from a decoded entry to a byte keeps
    the order of the entries, sends every entry at or below -1 to 0 and every
    entry at or above 1 to 255. *)
Theorem X8_pixel_byte_monotone_and_saturating (v1 v2 : Q) :
  ((v1 <= v2)%Q -> pixel_byte v1 <= pixel_byte v2) /\
  ((v1 <= -1)%Q -> pixel_byte v1 = 0) /\
  ((1 <= v1)%Q -> pixel_byte v1 = 255).
Proof.
  rewrite !pixel_byte_is_floor.
  split; [|split].
  - intros H. apply Qfloor_resp_le. apply clamp_monotone in H.
    unfold rescale. lra.
  - intros H.
    assert (Hc : (clamp (-1) 1 v1 <= -1)%Q).
    { unfold clamp. eapply Qle_trans; [apply Q.le_min_l|].
      apply Q.max_lub; [exact H | discriminate]. }
    destruct (clamp_range v1) as [Hlo _].
    apply Z.le_antisymm.
    + change 0 with (Qfloor (inject_Z 0)). apply Qfloor_resp_le.
      unfold rescale. change (inject_Z 0) with 0%Q. lra.
    + change 0 with (Qfloor (inject_Z 0)). apply Qfloor_resp_le.
      unfold rescale. change (inject_Z 0) with 0%Q. lra.
  - intros H.
    assert (Hc : (1 <= clamp (-1) 1 v1)%Q).
    { unfold clamp. apply Q.min_glb; [|discriminate].
      eapply Qle_trans; [exact H | apply Q.le_max_l]. }
    destruct (clamp_range v1) as [_ Hhi].
    apply Z.le_antisymm.
    + change 255 with (Qfloor (inject_Z 255)). apply Qfloor_resp_le.
      unfold rescale. change (inject_Z 255) with 255%Q. lra.
    + change 255 with (Qfloor (inject_Z 255)). apply Qfloor_resp_le.
      unfold rescale. change (inject_Z 255) with 255%Q. lra.
Qed.

(** ** The layout of the image *)

Lemma zip_cons_length {X : Type} (row : list X) (cols : list (list X)) :
  List.length cols = List.length row ->
  List.length (zip_cons row cols) = List.length row.
Proof.
  intros H. unfold zip_cons.
  rewrite length_map, length_combine, H. apply Nat.min_id.
Qed.

Lemma zip_cons_nth {X : Type} (row : list X) (cols : list (list X)) (j : nat) (d : X) :
  List.length cols = List.length row ->
  (j < List.length row)%nat ->
  nth j (zip_cons row cols) [] = nth j row d :: nth j cols [].
Proof.
  intros Hlen Hj. unfold zip_cons.
  rewrite (nth_indep _ [] ((fun p => fst p :: snd p) (d, []))).
  - rewrite (map_nth (fun p => fst p :: snd p) (combine row cols) (d, []) j).
    rewrite combine_nth by (symmetry; exact Hlen). reflexivity.
  - rewrite length_map, length_combine, Hlen, Nat.min_id. exact Hj.
Qed.

(** The transpose of [m > 0] rows of [n] entries has [n] rows, and its row
    [j] collects entry [j] of every row. *)
Lemma transpose_rows {X : Type} (n : nat) (d : X) (rows : list (list X)) :
  rows <> [] ->
  Forall (fun row => List.length row = n) rows ->
  List.length (transpose rows) = n /\
  forall j, (j < n)%nat ->
    nth j (transpose rows) [] = map (fun row => nth j row d) rows.
Proof.
  intros Hne Hrows.
  induction Hrows as [|row rest Hrow Hrest IH]; [now elim Hne|].
  destruct rest as [|row2 rest'].
  - cbn [transpose map]. split; [now rewrite length_map|].
    intros j Hj.
    rewrite (nth_indep _ [] ((fun v => [v]) d)) by (now rewrite length_map, Hrow).
    now rewrite (map_nth (fun v => [v]) row d j).
  - destruct IH as [IHlen IHnth]; [discriminate|].
    change (transpose (row :: row2 :: rest'))
      with (zip_cons row (transpose (row2 :: rest'))).
    split.
    + rewrite zip_cons_length; [exact Hrow | now rewrite IHlen, Hrow].
    + intros j Hj.
      rewrite (zip_cons_nth _ _ j d) by (rewrite ?IHlen, Hrow; auto).
      rewrite IHnth by exact Hj. reflexivity.
Qed.

(** [rearrange(x, "c h w -> h w c")] on [c > 0] planes of [h] rows of [w]
    entries: the result has [h] rows of [w] pixels of [c] channels, and its
    entry [(i, j, k)] is entry [(k, i, j)] of [x]. *)
Lemma rearrange_layout {X : Type} (c h w : nat) (d : X) (x : list (list (list X))) :
  (0 < c)%nat ->
  has_shape c h w x ->
  has_shape h w c (rearrange_chw_hwc x) /\
  forall i j k, (i < h)%nat -> (j < w)%nat -> (k < c)%nat ->
    entry3 (rearrange_chw_hwc x) i j k d = entry3 x k i j d.
Proof.
  intros Hc [Hlen Hx].
  assert (Hne : x <> []) by (destruct x; [cbn in Hlen; lia | discriminate]).
  assert (Hplanes : Forall (fun plane => List.length plane = h) x).
  { eapply Forall_impl; [|exact Hx]. now intros plane [Hp _]. }
  destruct (transpose_rows h [] x Hne Hplanes) as [Hth Htnth].
  (* row [i] of [transpose x]: the rows [i] of all planes *)
  assert (Hslice : forall i, (i < h)%nat ->
            let slice := map (fun plane => nth i plane []) x in
            slice <> [] /\ List.length slice = c /\
            Forall (fun row => List.length row = w) slice).
  { intros i Hi slice. subst slice. split; [|split].
    - destruct x; [now elim Hne | discriminate].
    - now rewrite length_map.
    - apply Forall_map. eapply Forall_impl; [|exact Hx].
      intros plane [Hp Hrows]. cbn beta.
      rewrite Forall_forall in Hrows. apply Hrows, nth_In. lia. }
  unfold rearrange_chw_hwc, has_shape, entry3.
  split; [split|].
  - now rewrite length_map.
  - apply Forall_map, Forall_forall. intros slice Hin.
    destruct (In_nth _ _ [] Hin) as (i & Hi & Hnth).
    rewrite Hth in Hi. rewrite Htnth in Hnth by exact Hi. subst slice.
    destruct (Hslice i Hi) as (Hsne & Hslen & Hsrows).
    destruct (transpose_rows w d _ Hsne Hsrows) as [Hlen2 Hnth2].
    split; [exact Hlen2|].
    apply Forall_forall. intros pixel Hpin.
    destruct (In_nth _ _ [] Hpin) as (j & Hj & Hpj).
    rewrite Hlen2 in Hj. rewrite Hnth2 in Hpj by exact Hj. subst pixel.
    now rewrite length_map.
  - intros i j k Hi Hj Hk.
    rewrite (nth_indep _ [] (transpose [])) by (now rewrite length_map, Hth).
    rewrite (map_nth transpose (transpose x) [] i), Htnth by exact Hi.
    destruct (Hslice i Hi) as (Hsne & Hslen & Hsrows).
    destruct (transpose_rows w d _ Hsne Hsrows) as [_ Hnth2].
    rewrite Hnth2 by exact Hj.
    rewrite map_map.
    rewrite (nth_indep _ d ((fun plane => nth j (nth i plane []) d) []))
      by (now rewrite length_map, Hlen).
    now rewrite (map_nth (fun plane => nth j (nth i plane []) d) x [] k).
Qed.

Lemma map3_shape {X Y : Type} (f : X -> Y) (a b c : nat) (x : list (list (list X))) :
  has_shape a b c x -> has_shape a b c (map3 f x).
Proof.
  intros [Hlen Hx]. unfold has_shape, map3. split; [now rewrite length_map|].
  apply Forall_map. eapply Forall_impl; [|exact Hx].
  intros plane [Hp Hrows]. split; [now rewrite length_map|].
  apply Forall_map. eapply Forall_impl; [|exact Hrows].
  intros row Hrow. now rewrite length_map.
Qed.

Lemma map3_entry {X Y : Type} (f : X -> Y) (x : list (list (list X)))
  (i j k : nat) (d : X) :
  entry3 (map3 f x) i j k (f d) = f (entry3 x i j k d).
Proof.
  unfold entry3, map3.
  pose proof (map_nth (map (map f)) x [] i) as H1. cbn [map] in H1. rewrite H1.
  pose proof (map_nth (map f) (nth i x []) [] j) as H2. cbn [map] in H2. rewrite H2.
  apply map_nth.
Qed.

(** X9.  When the first decoded sample has [c > 0] channels of [h] rows of
    [w] entries, the image has [h] rows of [w] pixels of [c] bytes, and the
    byte of channel [k] at row [i], column [j] is the byte of the decoded
    entry of channel [k] at row [i], column [j]: channels come last, nothing
    else is permuted. *)
Theorem X9_image_is_channels_last (decoded : Batch Pixels) (c h w : nat) (d : Q) :
  (0 < c)%nat ->
  has_shape c h w (sample0 decoded) ->
  has_shape h w c (to_byte_image decoded) /\
  forall i j k, (i < h)%nat -> (j < w)%nat -> (k < c)%nat ->
    entry3 (to_byte_image decoded) i j k (pixel_byte d) =
    entry_byte (entry3 (sample0 decoded) k i j (Num d)).
Proof.
  intros Hc Hshape.
  unfold to_byte_image. cbn [batch_map sample0].
  pose proof (map3_shape (clamp_entry (-1) 1) _ _ _ _ Hshape) as Hclamped.
  destruct (rearrange_layout c h w (clamp_entry (-1) 1 (Num d)) _ Hc Hclamped)
    as [Hshape' Hentry].
  split.
  - now apply map3_shape, map3_shape.
  - intros i j k Hi Hj Hk. unfold entry_byte.
    change (pixel_byte d)
      with (byte_entry (rescale_entry (clamp_entry (-1) 1 (Num d)))).
    rewrite !map3_entry, Hentry by assumption.
    now rewrite map3_entry.
Qed.

End Facts.

(** * The properties on concrete requests *)

(** The gate at values of the form's slider, and at a non-number. *)
Example use_true_cfg_at_slider_values :
  use_true_cfg_of 1%float = false /\
  use_true_cfg_of 0x1.199999999999ap+0%float = true /\
  use_true_cfg_of 5%float = true /\
  use_true_cfg_of nan = false.
Proof. repeat split; reflexivity. Qed.

(** The seed of the first example of the form, echoed. *)
Example echoed_seed_of_first_example :
  py_str 2680261499100305976 = "2680261499100305976"%string /\
  py_str (-1) = "-1"%string /\
  uint64_wrap (2 ^ 64 + 5) = 5.
Proof. repeat split; reflexivity. Qed.

(** C4 as first stated fails: two calls with the form's defaults (no
    reference image, seed [-1]) that differ in [start_step] and [id_weight]
    only, and whose draws are 1 and 2, return different images. *)
Lemma C4_counterexample :
  same_but_id_controls toy_request toy_request_late_id /\
  id_image toy_request = None /\
  id_image toy_request_late_id = None /\
  resp_image (result_of (generate_image 1 toy_request (toy_generator false))) <>
  resp_image (result_of (generate_image 2 toy_request_late_id (toy_generator false))).
Proof.
  split; [repeat split|]. split; [reflexivity|]. split; [reflexivity|].
  vm_compute. discriminate.
Qed.

(** C4, amended, on the form's defaults with one draw, 7, for both calls. *)
Lemma C4_witness :
  resp_image (result_of (generate_image 7 toy_request (toy_generator false))) =
  resp_image (result_of (generate_image 7 toy_request_late_id (toy_generator true))).
Proof.
  apply (C4_no_image_ignores_id_controls (B := toy_backend) 7 7 toy_request
           toy_request_late_id (toy_generator false) (toy_generator true));
    [repeat split | reflexivity | reflexivity | reflexivity].
Defined.

(** The small backend keeps a latent on its device. *)
Lemma toy_latent_stays_on_device : latent_stays_on_device (B := toy_backend).
Proof. repeat split. Qed.

(** C7 on a request with a reference image and true CFG, offload set. *)
Lemma C7_witness :
  relocations_and_stages
    (trace_of (generate_image 2 toy_request_with_face (toy_generator true))) =
  [EvMove H_t5 CUDA; EvMove H_clip CUDA;
   EvPrepare CUDA CUDA "portrait, made of ice sculpture";
   EvPrepare CUDA CUDA "bad quality";
   EvMove H_t5 CPU; EvMove H_clip CPU; EvEmptyCache; EvMove H_model CUDA;
   EvDenoise CUDA (request_denoise_args 2 toy_request_with_face (toy_generator true));
   EvMove H_model CPU; EvEmptyCache; EvMove H_ae_decoder CUDA;
   EvDecode CUDA;
   EvMove H_ae_decoder CPU; EvEmptyCache].
Proof.
  exact (C7_offload_relocations_in_order (B := toy_backend) 2 toy_request_with_face
           (toy_generator true) eq_refl toy_latent_stays_on_device).
Defined.

(** C7 as first stated fails: the moves are not only the seven it names,
    at its three points.  Under offload the decoder is moved an eighth time,
    to the CPU, and this move comes after the decoding stage. *)
Lemma C7_counterexample :
  offload (toy_generator true) = true /\
  moves (trace_of (generate_image 2 toy_request_with_face (toy_generator true))) =
    [EvMove H_t5 CUDA; EvMove H_clip CUDA;
     EvMove H_t5 CPU; EvMove H_clip CPU; EvMove H_model CUDA;
     EvMove H_model CPU; EvMove H_ae_decoder CUDA;
     EvMove H_ae_decoder CPU] /\
  exists before after,
    trace_of (generate_image 2 toy_request_with_face (toy_generator true)) =
      before ++ EvDecode CUDA :: after /\
    In (EvMove H_ae_decoder CPU) after.
Proof.
  split; [reflexivity|]. split; [reflexivity|].
  exists (firstn 18 (trace_of (generate_image 2 toy_request_with_face
                                  (toy_generator true)))).
  exists [EvMove H_ae_decoder CPU; EvEmptyCache].
  split; [reflexivity | now left].
Qed.


(** C8 as first stated fails.  In a session without offload that serves a
    request with a reference image and then the form's defaults, no handle
    moves, yet two fields of the handles are written: the [max_length] of
    the T5 encoder, 128 after start-up, is set by each request and ends at
    256, and the debug images of the identity pipeline, none after
    start-up, are those of the reference image at the end. *)
Lemma C8_counterexample :
  max_length (t5 (fst (FluxGenerator_init (B := toy_backend)))) = 128 /\
  debug_img_list (pulid_model (fst (FluxGenerator_init (B := toy_backend)))) = [] /\
  moves (trace_of (main (toy_args false) toy_session)) = [] /\
  max_length (t5 (state_of (main (toy_args false) toy_session))) = 256 /\
  debug_img_list (pulid_model (state_of (main (toy_args false) toy_session))) =
    [resize_numpy_image_long toy_face 1024] /\
  resize_numpy_image_long toy_face 1024 = ((1024, 1024) : @NumpyImage toy_backend) /\
  handle_writes (trace_of (serve generate_image toy_session (toy_generator false))) =
    [EvSetMaxLength 128; EvGetIdEmbedding (resize_numpy_image_long toy_face 1024) true; EvSetMaxLength 256].
Proof. repeat split; reflexivity. Qed.

(** The small backend's resize keeps the bound. *)
Lemma toy_resize_bounds_long_edge : resize_bounds_long_edge (B := toy_backend).
Proof.
  intros [h w] n Hn. unfold long_edge. cbn. lia.
Qed.

(** C9 on a reference image of 3000 by 2000 pixels. *)
Lemma C9_witness :
  resize_calls
    (trace_of (generate_image 2 toy_request_with_face (toy_generator false))) =
    [(toy_face, 1024)] /\
  extractor_calls
    (trace_of (generate_image 2 toy_request_with_face (toy_generator false))) =
    [((1024, 1024), true)] /\
  long_edge (B := toy_backend) (1024, 1024) <= 1024.
Proof.
  destruct (C9_reference_image_resized_first (B := toy_backend) 2
              toy_request_with_face (toy_generator false) toy_face eq_refl
              toy_resize_bounds_long_edge) as (Hresize & Hextract & _ & Hedge & _).
  exact (conj Hresize (conj Hextract Hedge)).
Defined.

(** * The further properties on concrete requests *)

(** X1 on the form's defaults: the first call draws with entropy 9, the
    replay has entropy 4 at hand and runs on a generator under offload. *)
Lemma X1_witness :
  exists s,
    py_parse_int
      (resp_seed (result_of (generate_image 9 toy_request (toy_generator false)))) =
      Some s /\
    s <> -1 /\
    drawn_seeds
      (trace_of (generate_image 4 (with_seed toy_request s) (toy_generator true))) = [] /\
    noise_seeds
      (trace_of (generate_image 4 (with_seed toy_request s) (toy_generator true))) =
    noise_seeds (trace_of (generate_image 9 toy_request (toy_generator false))) /\
    resp_image
      (result_of (generate_image 4 (with_seed toy_request s) (toy_generator true))) =
    resp_image (result_of (generate_image 9 toy_request (toy_generator false))) /\
    resp_seed
      (result_of (generate_image 4 (with_seed toy_request s) (toy_generator true))) =
    resp_seed (result_of (generate_image 9 toy_request (toy_generator false))).
Proof.
  exact (X1_echoed_seed_replays_the_request (B := toy_backend) 9 4 toy_request
           (toy_generator false) (toy_generator true) eq_refl).
Defined.

(** X2 on the form's defaults, where the true CFG scale is 1. *)
Lemma X2_witness :
  generate_image 1 (with_neg_prompt toy_request "blurry") (toy_generator false) =
  generate_image 1 toy_request (toy_generator false).
Proof.
  exact (X2_negative_prompt_ignored_without_true_cfg (B := toy_backend) 1
           toy_request "blurry" (toy_generator false) eq_refl).
Defined.

(** X4 on a generator under offload whose text encoders start on CUDA. *)
Lemma X4_witness :
  t5_device (t5 (toy_generator true)) = CUDA /\
  t5_device
    (t5 (state_of (generate_image 2 toy_request_with_face (toy_generator true)))) = CPU /\
  decoder_device
    (ae (state_of (generate_image 2 toy_request_with_face (toy_generator true)))) = CPU.
Proof.
  destruct (X4_offloaded_request_leaves_handles_on_cpu (B := toy_backend) 2
              toy_request_with_face (toy_generator true) eq_refl)
    as (Ht5 & _ & _ & Hdec & _).
  exact (conj eq_refl (conj Ht5 Hdec)).
Defined.

(** X5 on a session under offload: the form's defaults, then a request with
    a reference image. *)
Lemma X5_witness :
  state_of (serve generate_image ([(1, toy_request)] ++ [(2, toy_request_with_face)])
              (toy_generator true)) =
  state_of (generate_image 2 toy_request_with_face (toy_generator true)).
Proof.
  apply (proj2 (X5_generator_state_is_that_of_last_request (B := toy_backend)
                  [(1, toy_request)] 2 toy_request_with_face (toy_generator true))).
  intros er [<- | []]. reflexivity.
Defined.

Lemma toy_decoded_shape : has_shape 3 2 2 (sample0 toy_decoded).
Proof. split; [reflexivity|]. repeat constructor. Qed.

(** X9 on a sample of three channels, two rows and two columns: the image
    has two rows of two pixels of three bytes, and the last pixel of the
    first row holds the bytes of -1/2, 3 and -9/10. *)
Lemma X9_witness :
  has_shape 2 2 3 (to_byte_image (B := toy_backend) toy_decoded) /\
  entry3 (to_byte_image (B := toy_backend) toy_decoded) 0 1 2 (pixel_byte 0) =
    entry_byte (B := toy_backend) (entry3 (sample0 toy_decoded) 2 0 1 (Num 0)) /\
  nth 1 (nth 0 (to_byte_image (B := toy_backend) toy_decoded) []) [] = [63; 255; 12].
Proof.
  destruct (X9_image_is_channels_last (B := toy_backend) toy_decoded 3 2 2 0%Q
              ltac:(repeat constructor) toy_decoded_shape) as [Hshape Hentry].
  exact (conj Hshape
           (conj (Hentry 0%nat 1%nat 2%nat ltac:(repeat constructor)
                    ltac:(repeat constructor) ltac:(repeat constructor))
                 eq_refl)).
Defined.
